(** * EEG decoding pipeline of the cybathlon dashboard

    A shallow embedding of [src/models.py] ([predict]) and of the event
    decoding and validation loop of [bokeh_widgets/test_widget.py]
    ([on_run_change], [update_widget], [on_validate_start], [on_validate]),
    with the properties of the epoch extraction, crop aggregation and
    ensembling steps.

    Conventions.  Python [int]s are [Z]; Python and NumPy floats are modelled
    by exact rationals [Q] (the properties below only use the order of scores
    and of time differences, and the concrete inputs use dyadic values, on
    which binary floating point is exact; NaN is not modelled).  A Python
    [dict] is an association list in insertion order with unique keys.  A
    raised exception is the [Raise] case of [result]. *)

From Stdlib Require Import String Ascii ZArith QArith Qabs Bool Lia Sorted Permutation List.
Import ListNotations.

Local Open Scope Z_scope.

(** ** Python values: exceptions, dicts, strings, slices, Counter *)

Module Py.

(** The built-in exceptions the modelled code can raise, and the two error
    names of the design document, which no line of the code constructs. *)
Inductive exn : Type :=
| ValueError
| IndexError
| KeyError
| TypeError
| AxisError
| AssertionError
| AttributeError
| OutOfBoundsError
| ConfigurationError.

Inductive result (A : Type) : Type :=
| Ok (a : A)
| Raise (e : exn).

Arguments Ok {A} a.
Arguments Raise {A} e.

Definition bind {A B : Type} (c : result A) (k : A -> result B) : result B :=
  match c with
  | Ok a => k a
  | Raise e => Raise e
  end.

(** A list comprehension [[f x for x in xs]]: left to right, the first
    exception propagates. *)
Fixpoint comprehension {A B : Type} (f : A -> result B) (xs : list A)
  : result (list B) :=
  match xs with
  | [] => Ok []
  | x :: r =>
      bind (f x) (fun y => bind (comprehension f r) (fun ys => Ok (y :: ys)))
  end.

(** *** dict *)

Section Dict.
Context {K V : Type} (eqb : K -> K -> bool).

Fixpoint dict_get (d : list (K * V)) (k : K) : option V :=
  match d with
  | [] => None
  | (k', v) :: r => if eqb k' k then Some v else dict_get r k
  end.

(** [d[k] = v]: an existing key keeps its position, a new key goes last. *)
Fixpoint dict_set (d : list (K * V)) (k : K) (v : V) : list (K * V) :=
  match d with
  | [] => [(k, v)]
  | (k', v') :: r =>
      if eqb k' k then (k', v) :: r else (k', v') :: dict_set r k v
  end.

(** [k in d.keys()] *)
Definition dict_mem (d : list (K * V)) (k : K) : bool :=
  match dict_get d k with Some _ => true | None => false end.

(** [d[k]] *)
Definition dict_getitem (d : list (K * V)) (k : K) : result V :=
  match dict_get d k with Some v => Ok v | None => Raise KeyError end.
End Dict.

(** *** str(int), len, int(one character) *)

Definition digit_char (d : Z) : ascii := ascii_of_nat (48 + Z.to_nat d).

(** Decimal digits of [n >= 0], most significant first, in front of [acc];
    [fuel] bounds the number of further digits. *)
Fixpoint digits_fuel (fuel : nat) (n : Z) (acc : string) : string :=
  let acc' := String (digit_char (n mod 10)) acc in
  match fuel with
  | O => acc'
  | S f => if n <? 10 then acc' else digits_fuel f (n / 10) acc'
  end.

Definition digits (n : Z) : string :=
  digits_fuel (Z.to_nat (Z.log2 n)) n EmptyString.

Definition str (z : Z) : string :=
  if z <? 0 then String "-"%char (digits (- z)) else digits z.

(** [int(s[0])] for a non-empty string [s]: the value of a decimal digit,
    [ValueError] on any other character (the sign alone is not a number). *)
Definition int_of_char (c : ascii) : result Z :=
  let n := Z.of_nat (nat_of_ascii c) in
  if (48 <=? n) && (n <=? 57) then Ok (n - 48) else Raise ValueError.

Definition int_first_char (s : string) : result Z :=
  match s with
  | EmptyString => Raise IndexError
  | String c _ => int_of_char c
  end.

(** [int(x)] of a float: truncation toward zero. *)
Definition int_of_float (x : Q) : Z := Z.quot (Qnum x) (Zpos (Qden x)).

(** [s.split('.')[-1]]: the part of [s] after its last dot. *)
Fixpoint last_segment (s : string) (current : string) : string :=
  match s with
  | EmptyString => current
  | String c r =>
      if Ascii.eqb c "."%char then last_segment r EmptyString
      else last_segment r (current ++ String c EmptyString)%string
  end.

(** *** slices [l[start:stop]] *)

Definition slice_bound (n i : Z) : Z :=
  if i <? 0 then Z.max 0 (i + n) else Z.min i n.

Definition slice {A : Type} (l : list A) (start stop : Z) : list A :=
  let n := Z.of_nat (List.length l) in
  let a := slice_bound n start in
  let b := slice_bound n stop in
  firstn (Z.to_nat (b - a)) (skipn (Z.to_nat a) l).

(** *** collections.Counter *)

(** [self[elem] = self.get(elem, 0) + 1] *)
Definition counter_add (c : list (Z * Z)) (elem : Z) : list (Z * Z) :=
  dict_set Z.eqb c elem
    (match dict_get Z.eqb c elem with Some n => n | None => 0 end + 1).

Definition Counter (ys : list Z) : list (Z * Z) :=
  fold_left counter_add ys [].

(** [sorted(items, key=itemgetter(1), reverse=True)] is a stable sort:
    items of equal count keep their relative order.  [insert_desc x s]
    puts [x], which precedes all of [s] in the input, in front of the
    first item whose count is not larger. *)
Fixpoint insert_desc (x : Z * Z) (s : list (Z * Z)) : list (Z * Z) :=
  match s with
  | [] => [x]
  | y :: r => if snd x <? snd y then y :: insert_desc x r else x :: s
  end.

Definition most_common (c : list (Z * Z)) : list (Z * Z) :=
  fold_right insert_desc [] c.

(** [Counter(ys).most_common()[0][0]] *)
Definition most_common_label (ys : list Z) : result Z :=
  match most_common (Counter ys) with
  | [] => Raise IndexError
  | (k, _) :: _ => Ok k
  end.

End Py.

Import Py.

Notation "x <- c ;; k" := (bind c (fun x => k))
  (at level 61, c at next level, right associativity).
Notation "' pat <- c ;; k" := (bind c (fun x => match x with pat => k end))
  (at level 61, pat pattern, c at next level, right associativity).

(** ** NumPy arrays as nested lists *)

Module Np.

Definition vector := list Q.
Definition matrix := list (list Q).        (* rows *)
Definition tensor3 := list (list (list Q)).
Definition tensor4 := list (list (list (list Q))).

Definition Qltb (x y : Q) : bool := negb (Qle_bool y x).

(** One pass of [argmin]/[argmax]: the running best is replaced only by a
    strictly better element, so the first best index is kept. *)
Fixpoint scan_best (better : Q -> Q -> bool)
  (best_i : nat) (best : Q) (i : nat) (l : list Q) : nat :=
  match l with
  | [] => best_i
  | x :: r =>
      if better x best then scan_best better i x (S i) r
      else scan_best better best_i best (S i) r
  end.

Definition argmin (l : list Q) : result Z :=
  match l with
  | [] => Raise ValueError
  | x :: r => Ok (Z.of_nat (scan_best Qltb 0 x 1 r))
  end.

Definition argmax (l : list Q) : result Z :=
  match l with
  | [] => Raise ValueError
  | x :: r => Ok (Z.of_nat (scan_best (fun a b => Qltb b a) 0 x 1 r))
  end.

(** [np.argmax(m, axis=1)] *)
Definition argmax_axis1 (m : matrix) : result (list Z) :=
  comprehension argmax m.

Fixpoint vec_add (a b : list Q) : result (list Q) :=
  match a, b with
  | [], [] => Ok []
  | x :: a', y :: b' => r <- vec_add a' b' ;; Ok ((x + y)%Q :: r)
  | _, _ => Raise ValueError
  end.

Fixpoint mat_add (a b : matrix) : result matrix :=
  match a, b with
  | [], [] => Ok []
  | x :: a', y :: b' =>
      s <- vec_add x y ;; r <- mat_add a' b' ;; Ok (s :: r)
  | _, _ => Raise ValueError
  end.

(** [np.sum(ms, axis=0)] followed by a use of axis 1 of the result.  On an
    empty list NumPy's sum is the scalar 0.0 and the [argmax(axis=1)] that
    follows raises [AxisError]; matrices of different shapes do not stack
    ([ValueError]). *)
Definition sum_axis0 (ms : list matrix) : result matrix :=
  match ms with
  | [] => Raise AxisError
  | m :: r => fold_left (fun acc x => a <- acc ;; mat_add a x) r (Ok m)
  end.

(** [np.concatenate(arrays)] of 1-D arrays *)
Definition concatenate {A : Type} (arrays : list (list A)) : result (list A) :=
  match arrays with
  | [] => Raise ValueError
  | _ => Ok (concat arrays)
  end.

(** [X[:, :, :, np.newaxis]] *)
Definition newaxis_last (X : tensor3) : tensor4 :=
  map (map (map (fun x => [x]))) X.

(** [abs(t - ts)] *)
Definition abs_diff (t : Q) (ts : list Q) : list Q :=
  map (fun s => Qabs (t - s)) ts.

End Np.

(** ** models.py: the ensemble aggregator *)

Module Models.
Import Np.

(** A trained predictor returned by the model store.  A network maps the
    crops, with a trailing singleton axis, to one row of class scores per
    crop; a feature+classifier pipeline maps the crops to one hard label per
    crop.  Either may raise. *)
Inductive model : Type :=
| Network (predict : tensor4 -> result matrix)
| Pipeline (predict : tensor3 -> result (list Z)).

(** The [models] argument: one predictor or a list of predictors. *)
Inductive models_arg (M : Type) : Type :=
| Single (m : M)
| Several (ms : list M).

Arguments Single {M} m.
Arguments Several {M} ms.

(** [if not isinstance(models, list): models = [models]] *)
Definition as_list {M : Type} (models : models_arg M) : list M :=
  match models with
  | Single m => [m]
  | Several ms => ms
  end.

(** [model.predict(X[:, :, :, np.newaxis])] whose result is used as a score
    matrix, and [model.predict(X)] whose result is used as a label vector.
    The other kind of predictor does not produce such an array; the call or
    the aggregation after it raises, modelled as [TypeError]. *)
Definition predict_scores (X : tensor4) (m : model) : result matrix :=
  match m with
  | Network p => p X
  | Pipeline _ => Raise TypeError
  end.

Definition predict_labels (X : tensor3) (m : model) : result (list Z) :=
  match m with
  | Pipeline p => p X
  | Network _ => Raise TypeError
  end.

Section Predict.
(** [cropping] and [preprocessing] live in the module [preprocessing],
    which is not part of the sources at hand: they are parameters. *)
Variable cropping :
  tensor3 -> list (option Z) -> Q -> Z -> Q ->
  result (tensor3 * list (option Z)).
Variable preprocessing :
  tensor3 -> Q -> bool -> bool -> bool -> result tensor3.

Definition predict (X : tensor3) (models : models_arg model)
  (is_convnet : bool) (n_crops : Z) (crop_len fs : Q)
  (should_reref should_filter should_standardize : bool) : result Z :=
  let models := as_list models in
  '(X, _) <- cropping X [None] fs n_crops crop_len ;;
  y_preds <-
    (if is_convnet then
       X <- preprocessing X fs should_reref should_filter
              should_standardize ;;
       y_prob <- comprehension (predict_scores (newaxis_last X)) models ;;
       y_probs <- sum_axis0 y_prob ;;
       argmax_axis1 y_probs
     else
       y <- comprehension (predict_labels X) models ;;
       concatenate y) ;;
  most_common_label y_preds.
End Predict.

(** What the design document says of the neural path: the class-score
    vector is the sum over models and over crops, and the label is its
    argmax. *)
Fixpoint column_sums (m : matrix) : result (list Q) :=
  match m with
  | [] => Raise ValueError
  | [row] => Ok row
  | row :: rest => s <- column_sums rest ;; vec_add row s
  end.

Definition spec_summed_argmax (y_prob : list matrix) : result Z :=
  y_probs <- sum_axis0 y_prob ;;
  scores <- column_sums y_probs ;;
  argmax scores.

End Models.

(** ** The same aggregator with the collaborators' hidden state explicit

    [cropping], [preprocessing] and the predictors are foreign code: they may
    read and update state that [predict] does not see (a random generator, a
    cache).  [W] is that state; a computation takes it and returns it. *)

Module Hidden.
Import Np.

Section World.
Variable W : Type.

Definition io (A : Type) : Type := W -> result A * W.

Definition ret {A : Type} (a : A) : io A := fun w => (Ok a, w).

Definition lift {A : Type} (r : result A) : io A := fun w => (r, w).

Definition bind_io {A B : Type} (c : io A) (k : A -> io B) : io B :=
  fun w =>
    match c w with
    | (Ok a, w') => k a w'
    | (Raise e, w') => (Raise e, w')
    end.

Fixpoint comprehension_io {A B : Type} (f : A -> io B) (xs : list A)
  : io (list B) :=
  match xs with
  | [] => ret []
  | x :: r =>
      bind_io (f x) (fun y =>
      bind_io (comprehension_io f r) (fun ys => ret (y :: ys)))
  end.

Inductive model : Type :=
| Network (predict : tensor4 -> io matrix)
| Pipeline (predict : tensor3 -> io (list Z)).

Definition predict_scores (X : tensor4) (m : model) : io matrix :=
  match m with
  | Network p => p X
  | Pipeline _ => lift (Raise TypeError)
  end.

Definition predict_labels (X : tensor3) (m : model) : io (list Z) :=
  match m with
  | Pipeline p => p X
  | Network _ => lift (Raise TypeError)
  end.

Variable cropping :
  tensor3 -> list (option Z) -> Q -> Z -> Q ->
  io (tensor3 * list (option Z)).
Variable preprocessing :
  tensor3 -> Q -> bool -> bool -> bool -> io tensor3.

(** [predict], returning its local [y_probs] (on the neural path) next to
    the label it returns. *)
Definition predict (X : tensor3) (models : Models.models_arg model)
  (is_convnet : bool) (n_crops : Z) (crop_len fs : Q)
  (should_reref should_filter should_standardize : bool)
  : io (option matrix * Z) :=
  let models := Models.as_list models in
  bind_io (cropping X [None] fs n_crops crop_len) (fun Xy =>
  let X := fst Xy in
  bind_io
    (if is_convnet then
       bind_io (preprocessing X fs should_reref should_filter
                  should_standardize) (fun X =>
       bind_io (comprehension_io (predict_scores (newaxis_last X)) models)
         (fun y_prob =>
       bind_io (lift (sum_axis0 y_prob)) (fun y_probs =>
       bind_io (lift (argmax_axis1 y_probs)) (fun y_preds =>
       ret (Some y_probs, y_preds)))))
     else
       bind_io (comprehension_io (predict_labels X) models) (fun y =>
       bind_io (lift (concatenate y)) (fun y_preds =>
       ret (None, y_preds))))
    (fun r =>
  bind_io (lift (most_common_label (snd r))) (fun y_pred =>
  ret (fst r, y_pred)))).

(** A computation whose result does not depend on the hidden state. *)
Definition state_blind {A : Type} (c : io A) : Prop :=
  forall w1 w2, fst (c w1) = fst (c w2).

Definition model_state_blind (m : model) : Prop :=
  match m with
  | Network p => forall X, state_blind (p X)
  | Pipeline p => forall X, state_blind (p X)
  end.
End World.

Arguments ret {W A} a.
Arguments lift {W A} r.
Arguments bind_io {W A B} c k.
Arguments comprehension_io {W A B} f xs.
Arguments Network {W} predict.
Arguments Pipeline {W} predict.
Arguments state_blind {W A} c.
Arguments model_state_blind {W} m.

(** A predictor without hidden state, seen as one that ignores it. *)
Definition of_pure {W : Type} (m : Models.model) : model W :=
  match m with
  | Models.Network p => Network (fun X => lift (p X))
  | Models.Pipeline p => Pipeline (fun X => lift (p X))
  end.

End Hidden.

(** ** test_widget.py: event decoding and the validation loop

    Display-only state (select options, button label, info text, channel
    table) is left out; the metrics printed after the loop come from
    scikit-learn and are a parameter. *)

Module Widget.
Import Np Models.

(** The columns of [chrono_source.data]. *)
Record ColumnData : Type := mkColumns {
  col_ts : list Q;
  col_y_true : list Z;
  col_y_pred : list Z
}.

(** [self._data] once a run is loaded:
    keys ['values'], ['ts'] and ['events']. *)
Record RunData : Type := mkRun {
  values : matrix;                 (* channels x samples *)
  ts : list Q;
  events : list (Q * Z)
}.

(** What [load_vhdr] and [mne] give for a run. *)
Record Raw : Type := mkRaw {
  sfreq : Q;
  annotation_events : list (Z * Z * Z);   (* sample, previous, marker *)
  raw_values : matrix;
  raw_times : list Q
}.

Record TestWidget : Type := mkWidget {
  markers_decoding : list (Z * string);
  pred_decoding : list (Z * string);
  decoding2pred : list (string * Z);
  n_crops : Z;
  crop_len : Q;
  fs : option Q;                        (* set by [on_run_change] *)
  data : option RunData;                (* [{}] until a run is loaded *)
  pipeline : option (models_arg model); (* set by [on_model_change] *)
  chrono_source : ColumnData;
  select_run_value : string;
  select_model_value : string;
  checkbox_preproc_active : list nat;
  slider_win_len_value : Q
}.

Definition empty_columns : ColumnData := mkColumns [] [] [].

(** [{v: k for k, v in pred_decoding.items()}] *)
Definition invert (d : list (Z * string)) : list (string * Z) :=
  fold_left (fun acc kv => dict_set String.eqb acc (snd kv) (fst kv)) d [].

(** [__init__], from the two configuration tables and the crop settings. *)
Definition init (markers pred : list (Z * string)) (crops : Z) (len : Q)
  : TestWidget :=
  mkWidget markers pred (invert pred) crops len None None None
    empty_columns EmptyString EmptyString [] 1%Q.

Definition set_chrono (w : TestWidget) (c : ColumnData) : TestWidget :=
  mkWidget (markers_decoding w) (pred_decoding w) (decoding2pred w)
    (n_crops w) (crop_len w) (fs w) (data w) (pipeline w) c
    (select_run_value w) (select_model_value w)
    (checkbox_preproc_active w) (slider_win_len_value w).

Definition set_fs (w : TestWidget) (f : Q) : TestWidget :=
  mkWidget (markers_decoding w) (pred_decoding w) (decoding2pred w)
    (n_crops w) (crop_len w) (Some f) (data w) (pipeline w)
    (chrono_source w) (select_run_value w) (select_model_value w)
    (checkbox_preproc_active w) (slider_win_len_value w).

Definition set_data (w : TestWidget) (d : RunData) : TestWidget :=
  mkWidget (markers_decoding w) (pred_decoding w) (decoding2pred w)
    (n_crops w) (crop_len w) (fs w) (Some d) (pipeline w)
    (chrono_source w) (select_run_value w) (select_model_value w)
    (checkbox_preproc_active w) (slider_win_len_value w).

(** An attribute or a key that is not set yet. *)
Definition attr {A : Type} (o : option A) : result A :=
  match o with Some a => Ok a | None => Raise AttributeError end.

Definition key {A : Type} (o : option A) : result A :=
  match o with Some a => Ok a | None => Raise KeyError end.

(** *** properties *)

Definition labels : list string :=
  ["Filter"; "Standardize"; "Rereference"]%string.

(** [[labels[i] for i in active]]; the button group only reports indices
    of its own labels. *)
Definition selected_preproc (w : TestWidget) : list string :=
  map (fun i => nth i labels EmptyString) (checkbox_preproc_active w).

Definition string_in (s : string) (l : list string) : bool :=
  existsb (String.eqb s) l.

Definition should_reref (w : TestWidget) : bool :=
  string_in "Rereference" (selected_preproc w).

Definition should_filter (w : TestWidget) : bool :=
  string_in "Filter" (selected_preproc w).

Definition should_standardize (w : TestWidget) : bool :=
  string_in "Standardize" (selected_preproc w).

Definition is_convnet (w : TestWidget) : bool :=
  String.eqb (last_segment (select_model_value w) EmptyString) "h5".

(** [int(self.fs*self.slider_win_len.value)] *)
Definition win_len (w : TestWidget) : result Z :=
  f <- attr (fs w) ;;
  Ok (int_of_float (f * slider_win_len_value w)%Q).

(** *** on_run_change: the event decoder *)

(** One turn of [for ts, _, marker in events]. *)
Definition decode_step (markers : list (Z * string))
  (acc : result (list (Z * Z))) (ev : Z * Z * Z) : result (list (Z * Z)) :=
  decoded_events <- acc ;;
  let '(t, _, marker) := ev in
  let raw_label := str marker in
  if (String.length raw_label =? 2)%nat then
    label <- int_first_char raw_label ;;
    if dict_mem Z.eqb markers label
    then Ok (decoded_events ++ [(t, label)])
    else Ok decoded_events
  else Ok decoded_events.

Definition decode_events (markers : list (Z * string))
  (evs : list (Z * Z * Z)) : result (list (Z * Z)) :=
  fold_left (decode_step markers) evs (Ok []).

(** [[(ts/self.fs, action) for ts, action in decoded_events]] *)
Definition to_seconds (f : Q) (decoded : list (Z * Z)) : list (Q * Z) :=
  map (fun e => ((inject_Z (fst e) / f)%Q, snd e)) decoded.

(** [self.chrono_source.data = dict(ts=[], y_true=[], y_pred=[])], the
    only effect of [update_widget] outside the display. *)
Definition update_widget (w : TestWidget) : TestWidget :=
  set_chrono w empty_columns.

(** The outcome of a callback: the exception that ended it, if any, and the
    widget as the callback left it. *)
Definition outcome : Type := (option exn * TestWidget)%type.

Definition on_run_change (w : TestWidget) (new : string) (raw : Raw)
  : outcome :=
  if String.eqb new EmptyString then (None, w)
  else
    let w := update_widget w in
    let w := set_fs w (sfreq raw) in
    match decode_events (markers_decoding w) (annotation_events raw) with
    | Raise e => (Some e, w)
    | Ok decoded_events =>
        (None, set_data w (mkRun (raw_values raw) (raw_times raw)
                             (to_seconds (sfreq raw) decoded_events)))
    end.

(** *** on_validate: epoch extraction, prediction, log *)

(** [end_idx = np.argmin(abs(ts - self._data['ts']))] *)
Definition nearest_sample (t : Q) (timestamps : list Q) : result Z :=
  argmin (abs_diff t timestamps).

(** Lines 200 to 202: the epoch of an event.  [window] is the property
    [self.win_len], read after [end_idx] is computed. *)
Definition extract_epoch (vals : matrix) (timestamps : list Q) (t : Q)
  (window : result Z) : result tensor3 :=
  end_idx <- nearest_sample t timestamps ;;
  win <- window ;;
  let start_idx := end_idx - win in
  Ok [map (fun channel => slice channel start_idx end_idx) vals].

(** [chrono_source.stream(dict(ts=[ts], y_true=[y_true], y_pred=[y_pred]))] *)
Definition stream (c : ColumnData) (t : Q) (y_true y_pred : Z) : ColumnData :=
  mkColumns (col_ts c ++ [t]) (col_y_true c ++ [y_true])
    (col_y_pred c ++ [y_pred]).

Section Validate.
Variable cropping :
  tensor3 -> list (option Z) -> Q -> Z -> Q ->
  result (tensor3 * list (option Z)).
Variable preprocessing :
  tensor3 -> Q -> bool -> bool -> bool -> result tensor3.
(** [balanced_accuracy_score] and [cohen_kappa_score] on the two label
    columns. *)
Variable metrics : list Z -> list Z -> result (Q * Q).

(** The body of [for ts, groundtruth in self._data['events']]: the
    prediction and the ground truth of one event. *)
Definition predict_event (w : TestWidget) (ev : Q * Z) : result (Z * Z) :=
  let '(t, groundtruth) := ev in
  d <- key (data w) ;;
  epoch <- extract_epoch (values d) (ts d) t (win_len w) ;;
  models <- attr (pipeline w) ;;
  f <- attr (fs w) ;;
  y_pred <- predict cropping preprocessing epoch models (is_convnet w)
              (n_crops w) (crop_len w) f
              (should_reref w) (should_filter w) (should_standardize w) ;;
  name <- dict_getitem Z.eqb (markers_decoding w) groundtruth ;;
  y_true <- dict_getitem String.eqb (decoding2pred w) name ;;
  Ok (y_true, y_pred).

Definition validate_event (w : TestWidget) (ev : Q * Z)
  : result TestWidget :=
  r <- predict_event w ev ;;
  Ok (set_chrono w (stream (chrono_source w) (fst ev) (fst r) (snd r))).

(** The loop stops at the first exception and leaves the log as it is. *)
Fixpoint validate_loop (w : TestWidget) (evs : list (Q * Z)) : outcome :=
  match evs with
  | [] => (None, w)
  | ev :: rest =>
      match validate_event w ev with
      | Ok w' => validate_loop w' rest
      | Raise e => (Some e, w)
      end
  end.

Definition on_validate (w : TestWidget) : outcome :=
  match key (data w) with
  | Raise e => (Some e, w)
  | Ok d =>
      match validate_loop w (events d) with
      | (Some e, w') => (Some e, w')
      | (None, w') =>
          match metrics (col_y_true (chrono_source w'))
                        (col_y_pred (chrono_source w')) with
          | Ok _ => (None, w')
          | Raise e => (Some e, w')
          end
      end
  end.

(** The two assertions, the reset, and the scheduling of [on_validate]
    for the next tick of the event loop; [true] says it was scheduled. *)
Definition on_validate_start (w : TestWidget) : outcome * bool :=
  if String.eqb (select_run_value w) EmptyString
  then ((Some AssertionError, w), false)
  else if String.eqb (select_model_value w) EmptyString
  then ((Some AssertionError, w), false)
  else ((None, update_widget w), true).

(** A validation pass: the button callback, then the scheduled
    [on_validate]. *)
Definition validation_pass (w : TestWidget) : outcome :=
  match on_validate_start w with
  | (r, false) => r
  | ((_, w'), true) => on_validate w'
  end.
End Validate.

End Widget.

(** ** Vocabulary of the properties and concrete inputs *)

(** [le a b] reads: [a] is at least as good as [b].  [i] is the lowest index
    of a best element of [l]. *)
Definition first_best (le : Q -> Q -> Prop) (l : list Q) (i : nat) : Prop :=
  (i < length l)%nat /\
  (forall j, (j < length l)%nat -> le (nth i l 0%Q) (nth j l 0%Q)) /\
  (forall j, (j < i)%nat -> ~ le (nth j l 0%Q) (nth i l 0%Q)).

Definition getz (c : list (Z * Z)) (k : Z) : Z :=
  match dict_get Z.eqb c k with Some n => n | None => 0 end.

(** [l] is the most frequent element of [ys]; every element met before the
    first occurrence of [l] is strictly less frequent. *)
Definition first_mode (ys : list Z) (l : Z) : Prop :=
  In l ys /\
  (forall v, (count_occ Z.eq_dec ys v <= count_occ Z.eq_dec ys l)%nat) /\
  (forall a b, ys = a ++ l :: b -> ~ In l a ->
     forall v, In v a ->
               (count_occ Z.eq_dec ys v < count_occ Z.eq_dec ys l)%nat).

(** [i] is the lowest index of a minimum of [l]. *)
Definition first_min (l : list Q) (i : nat) : Prop :=
  (i < length l)%nat /\
  (forall j, (j < length l)%nat -> (nth i l 0 <= nth j l 0)%Q) /\
  (forall j, (j < i)%nat -> (nth i l 0 < nth j l 0)%Q).

(** [i] is the lowest index of a maximum of [l]. *)
Definition first_max (l : list Q) (i : nat) : Prop :=
  (i < length l)%nat /\
  (forall j, (j < length l)%nat -> (nth j l 0 <= nth i l 0)%Q) /\
  (forall j, (j < i)%nat -> (nth j l 0 < nth i l 0)%Q).

(** The markers the decoder keeps, and what it emits for them. *)
Definition accepted (markers : list (Z * string)) (ev : Z * Z * Z) : bool :=
  (10 <=? snd ev) && (snd ev <=? 99) && dict_mem Z.eqb markers (snd ev / 10).

Definition decoded (ev : Z * Z * Z) : Z * Z := (fst (fst ev), snd ev / 10).

(** The label of a run, without the local [y_probs]. *)
Definition label_of (r : result (option Np.matrix * Z)) : result Z :=
  match r with
  | Ok (_, y_pred) => Ok y_pred
  | Raise e => Raise e
  end.

Definition extend (c : Widget.ColumnData) (done : list (Q * Z))
  (rs : list (Z * Z)) : Widget.ColumnData :=
  Widget.mkColumns (Widget.col_ts c ++ map fst done)
    (Widget.col_y_true c ++ map fst rs) (Widget.col_y_pred c ++ map snd rs).

(** The recording of the end-to-end scenario: 2 channels, 1000 samples at
    500 Hz. *)
Definition scenario_ts : list Q :=
  map (fun i => (Z.of_nat i # 500)%Q) (seq 0 1000).

Definition scenario_values : Np.matrix :=
  [map (fun i => inject_Z (Z.of_nat i)) (seq 0 1000);
   map (fun i => inject_Z (- Z.of_nat i)) (seq 0 1000)].

(** Collaborators that change nothing, for the concrete inputs. *)
Definition no_cropping (X : Np.tensor3) (y : list (option Z)) (fs : Q)
  (n_crops : Z) (crop_len : Q) : result (Np.tensor3 * list (option Z)) :=
  Ok (X, y).

Definition no_preprocessing (X : Np.tensor3) (fs : Q)
  (should_reref should_filter should_standardize : bool) : result Np.tensor3 :=
  Ok X.

(** Four crops, four classes: class 0 wins three crops, class 3 has the
    largest column sum (17/8 against 15/8). *)
Definition crop_scores : Np.matrix :=
  [[5 # 8; 0; 0; 3 # 8]; [5 # 8; 0; 0; 3 # 8]; [5 # 8; 0; 0; 3 # 8];
   [0; 0; 0; 1]]%Q.

Definition constant_network : Models.model :=
  Models.Network (fun _ => Ok crop_scores).

Definition constant_pipeline (labels : list Z) : Models.model :=
  Models.Pipeline (fun _ => Ok labels).

(** Collaborators with hidden state: each call is counted, the results do
    not depend on the count. *)
Definition counting_cropping (X : Np.tensor3) (y : list (option Z)) (fs : Q)
  (n_crops : Z) (crop_len : Q) : Hidden.io nat (Np.tensor3 * list (option Z)) :=
  fun calls => (Ok (X, y), S calls).

Definition counting_preprocessing (X : Np.tensor3) (fs : Q)
  (should_reref should_filter should_standardize : bool)
  : Hidden.io nat Np.tensor3 :=
  fun calls => (Ok X, S calls).

(** A cropping whose crop depends on the hidden state (as a random offset
    would), and a network whose scores depend on the crop it is given. *)
Definition drifting_cropping (X : Np.tensor3) (y : list (option Z)) (fs : Q)
  (n_crops : Z) (crop_len : Q) : Hidden.io nat (Np.tensor3 * list (option Z)) :=
  fun calls => (Ok ([[[inject_Z (Z.of_nat calls)]]], y), S calls).

Definition reading_network : Hidden.model nat :=
  Hidden.Network (fun X4 calls =>
    (Ok [[nth 0 (concat (concat (concat X4))) 0%Q; (1 # 2)%Q]], S calls)).

Definition counting_network : Hidden.model nat :=
  Hidden.Network (fun _ calls => (Ok crop_scores, S calls)).

Definition example_markers : list (Z * string) :=
  [(1, "Rest"); (2, "Left"); (3, "Right")]%string.

Definition example_raw : Widget.Raw :=
  Widget.mkRaw 500%Q
    [(100, 0, 11); (150, 0, 99999); (300, 0, 25); (400, 0, 7); (450, 0, 48);
     (500, 0, 31)]
    [[0%Q]] [0%Q].

Definition fresh_widget : Widget.TestWidget :=
  Widget.init example_markers example_markers 10 (1 # 2)%Q.

Definition grid_ts : list Q := [0; 1 # 500; 2 # 500; 3 # 500]%Q.

Definition small_values : Np.matrix := [[1; 2; 3; 4]; [5; 6; 7; 8]]%Q.

Definition small_ts : list Q := [0; 1 # 2; 1; 3 # 2]%Q.

(** One channel of 3 samples against 5 timestamps. *)
Definition short_values : Np.matrix := [[1; 2; 3]]%Q.

Definition long_ts : list Q := [0; 1; 2; 3; 4]%Q.

Definition example_pred : list (Z * string) :=
  [(0, "Rest"); (1, "Left"); (2, "Right")]%string.

(** A loaded run of 1 channel and 4 samples at 2 Hz with two events, a
    classical model, a window of 1 s, and a log left by an earlier pass. *)
Definition example_widget : Widget.TestWidget :=
  Widget.mkWidget example_markers example_pred (Widget.invert example_pred)
    2 (1 # 2)%Q (Some 2%Q)
    (Some (Widget.mkRun [[10; 11; 12; 13]%Q] [0; 1 # 2; 1; 3 # 2]%Q
             [(1%Q, 1); ((3 # 2)%Q, 3)]))
    (Some (Models.Single (constant_pipeline [1; 1])))
    (Widget.mkColumns [9%Q] [9] [9])
    "run.vhdr" "model.pkl" [1%nat] 1%Q.

Definition example_metrics (y_true y_pred : list Z) : result (Q * Q) :=
  Ok (1%Q, 1%Q).

(** ** test_widget.py: the selection callbacks *)

Module Callbacks.
Import Widget.




End Callbacks.

(** ** Vocabulary of the further properties *)

(** The key of the last entry of [d] whose value is [v]. *)
Fixpoint last_key (d : list (Z * string)) (v : string) : option Z :=
  match d with
  | [] => None
  | (k, v') :: r =>
      match last_key r v with
      | Some k' => Some k'
      | None => if String.eqb v' v then Some k else None
      end
  end.

Fixpoint no_dot (s : string) : bool :=
  match s with
  | EmptyString => true
  | String c r => negb (Ascii.eqb c "."%char) && no_dot r
  end.

(** Marker codes on which the decoder raises: a sign and one digit. *)
Definition signed_digit (ev : Z * Z * Z) : bool :=
  (-9 <=? snd ev) && (snd ev <=? -1).

(** The time vector of [n] samples at [f] Hz: sample [i] at [i / f]. *)
Definition uniform_times (f : Q) (n : nat) : list Q :=
  map (fun i => (inject_Z (Z.of_nat i) / f)%Q) (seq 0 n).

(** A widget with a loaded run and a model, whose run has just been
    deselected by a session change. *)
Definition example_widget_neural : Widget.TestWidget :=
  Widget.mkWidget example_markers example_pred (Widget.invert example_pred)
    4 (1 # 2)%Q (Some 2%Q)
    (Some (Widget.mkRun [[10; 11; 12; 13]%Q] [0; 1 # 2; 1; 3 # 2]%Q
             [(1%Q, 1); ((3 # 2)%Q, 3)]))
    (Some (Models.Single constant_network))
    (Widget.mkColumns [9%Q] [9] [9])
    "run.vhdr" "model0.h5" [1%nat; 2%nat] 1%Q.

(** The hard labels of three models over three crops. *)
Definition three_votes : list (list Z) := [[2; 2; 1]; [2; 1; 1]; [1; 1; 1]].

(** One crop, three classes, and a network that scores it. *)
Definition single_crop_row : list Q := [1 # 4; 1 # 4; 1 # 2]%Q.

Definition single_crop_network : Models.model :=
  Models.Network (fun _ => Ok [single_crop_row]).

(** A predictor that fails. *)
Definition failing_pipeline : Models.model :=
  Models.Pipeline (fun _ => Raise ValueError).

(** The second event of this widget cannot be predicted: its run has a
    second model that fails. *)
Definition example_widget_failing : Widget.TestWidget :=
  Widget.mkWidget example_markers example_pred (Widget.invert example_pred)
    2 (1 # 2)%Q (Some 2%Q)
    (Some (Widget.mkRun [[10; 11; 12; 13]%Q] [0; 1 # 2; 1; 3 # 2]%Q
             [(1%Q, 1); ((3 # 2)%Q, 7)]))
    (Some (Models.Single (constant_pipeline [1; 1])))
    (Widget.mkColumns [9%Q] [9] [9])
    "run.vhdr" "model.pkl" [1%nat] 1%Q.

(** Raw events with a signed one-digit marker in the middle. *)
Definition signed_raw : Widget.Raw :=
  Widget.mkRaw 500%Q [(100, 0, 11); (200, 0, -5); (300, 0, 25)]
    [[0%Q]] [0%Q].

(** * Properties *)

(** ** Checks of the Python and NumPy primitives on literals *)

Example str_examples :
  str 0 = "0"%string /\ str 7 = "7"%string /\ str 42 = "42"%string /\
  str 99999 = "99999"%string /\ str (-5) = "-5"%string /\
  str 1000 = "1000"%string.
Proof. repeat split; reflexivity. Qed.

Example most_common_examples :
  most_common_label [0; 1; 0; 1] = Ok 0 /\
  most_common_label [1; 0; 1; 0] = Ok 1 /\
  most_common_label [2; 2; 1; 2; 1; 1; 1; 1; 1] = Ok 1 /\
  most_common_label [] = Raise IndexError.
Proof. repeat split; reflexivity. Qed.

Example slice_examples :
  slice [1; 2; 3; 4; 5] 1 3 = [2; 3] /\ slice [1; 2; 3; 4; 5] (-2) 1 = [] /\
  slice [1; 2; 3; 4; 5] (-7) 2 = [1; 2] /\ slice [1; 2; 3] 2 4 = [3].
Proof. repeat split; reflexivity. Qed.

Example argmin_argmax_examples :
  Np.argmin [3; 1; 2; 1]%Q = Ok 1 /\ Np.argmax [1; 3; 2; 3]%Q = Ok 1 /\
  Np.argmin [] = Raise ValueError /\
  Np.sum_axis0 [[[1; 2]]; [[3; 4]]]%Q = Ok [[1 + 3; 2 + 4]]%Q /\
  Np.sum_axis0 [[[1; 2]]; [[3]]]%Q = Raise ValueError.
Proof. repeat split; reflexivity. Qed.

Example int_examples :
  int_first_char "-5" = Raise ValueError /\ int_first_char "42" = Ok 4 /\
  int_of_float (5 # 2) = 2 /\ int_of_float (250 # 1) = 250 /\
  last_segment "model0.h5" EmptyString = "h5"%string /\
  last_segment "csp.pkl" EmptyString = "pkl"%string.
Proof. repeat split; reflexivity. Qed.

(** The scenario of the design document, event at 1.2 s: samples 100 to 599
    of both channels. *)
Example scenario_epoch :
  Widget.nearest_sample (600 # 500)%Q scenario_ts = Ok 600 /\
  exists epoch,
    Widget.extract_epoch scenario_values scenario_ts (600 # 500)%Q (Ok 500)
    = Ok [epoch] /\
    map (@length Q) epoch = [500; 500]%nat.
Proof.
  split; [vm_compute; reflexivity|].
  eexists. split; [vm_compute; reflexivity|]. reflexivity.
Qed.

(** A one-character marker with a sign makes the decoder raise; marker codes
    are positive, so the decoder never meets one. *)
Example negative_marker_raises :
  Widget.decode_events example_markers [(100, 0, -5)] = Raise ValueError.
Proof. reflexivity. Qed.

(** ** The result monad *)

Lemma bind_Ok {A B : Type} (c : result A) (k : A -> result B) (b : B) :
  bind c k = Ok b -> exists a, c = Ok a /\ k a = Ok b.
Proof.
  destruct c as [a|e]; simpl; intros H; [exists a; auto | discriminate].
Qed.

Lemma comprehension_length {A B : Type} (f : A -> result B) :
  forall xs ys, comprehension f xs = Ok ys -> length ys = length xs.
Proof.
  induction xs as [|x r IH]; simpl; intros ys H.
  - inversion H; reflexivity.
  - apply bind_Ok in H as (y & _ & H).
    apply bind_Ok in H as (ys' & Hr & H).
    inversion H; subst; simpl; f_equal; auto.
Qed.

Lemma comprehension_Forall2 {A B : Type} (f : A -> result B) :
  forall xs ys, comprehension f xs = Ok ys ->
                Forall2 (fun x y => f x = Ok y) xs ys.
Proof.
  induction xs as [|x r IH]; simpl; intros ys H.
  - inversion H; constructor.
  - apply bind_Ok in H as (y & Hy & H).
    apply bind_Ok in H as (ys' & Hr & H).
    inversion H; subst; constructor; auto.
Qed.

Lemma comprehension_total {A B : Type} (f : A -> result B) :
  forall xs, Forall (fun x => exists y, f x = Ok y) xs ->
             exists ys, comprehension f xs = Ok ys.
Proof.
  induction 1 as [|x r (y & Hy) _ (ys & Hys)]; simpl.
  - eexists; reflexivity.
  - rewrite Hy, Hys; simpl; eexists; reflexivity.
Qed.

(** ** Counter.most_common: the first most frequent element *)

Lemma most_common_head (c : list (Z * Z)) :
  match most_common c with
  | [] => c = []
  | x :: _ =>
      exists p s, c = p ++ x :: s /\
                  (forall y, In y p -> snd y < snd x) /\
                  (forall y, In y s -> snd y <= snd x)
  end.
Proof.
  induction c as [|x c IH]; simpl; [reflexivity|].
  destruct (most_common c) as [|h r]; simpl.
  - subst c. exists [], []. repeat split; simpl; intros; contradiction.
  - destruct IH as (p & s & Hc & Hp & Hs).
    destruct (Z.ltb_spec (snd x) (snd h)) as [Hlt|Hge].
    + exists (x :: p), s. subst c. repeat split; auto.
      intros y [<-|Hy]; auto.
    + exists [], c. repeat split; simpl; [intros; contradiction|].
      intros y Hy. subst c. apply in_app_or in Hy as [Hy|[<-|Hy]].
      * specialize (Hp y Hy). lia.
      * lia.
      * specialize (Hs y Hy). lia.
Qed.

Lemma dict_get_set (c : list (Z * Z)) (k v k' : Z) :
  dict_get Z.eqb (dict_set Z.eqb c k v) k' =
  if Z.eqb k k' then Some v else dict_get Z.eqb c k'.
Proof.
  induction c as [|[k0 v0] c IH]; simpl.
  - reflexivity.
  - destruct (Z.eqb_spec k0 k) as [->|Hne]; simpl.
    + destruct (Z.eqb_spec k k'); reflexivity.
    + rewrite IH. destruct (Z.eqb_spec k0 k') as [->|]; [|reflexivity].
      destruct (Z.eqb_spec k k'); [congruence|reflexivity].
Qed.

Lemma dict_set_keys (c : list (Z * Z)) (k v : Z) :
  map fst (dict_set Z.eqb c k v) =
  if in_dec Z.eq_dec k (map fst c) then map fst c else map fst c ++ [k].
Proof.
  induction c as [|[k0 v0] c IH]; simpl; [reflexivity|].
  destruct (Z.eqb_spec k0 k) as [->|Hne]; simpl.
  - destruct (Z.eq_dec k k); [reflexivity|congruence].
  - rewrite IH. destruct (Z.eq_dec k0 k); [congruence|].
    destruct (in_dec Z.eq_dec k (map fst c)); reflexivity.
Qed.

Lemma dict_get_In (c : list (Z * Z)) (k v : Z) :
  NoDup (map fst c) -> In (k, v) c -> dict_get Z.eqb c k = Some v.
Proof.
  induction c as [|[k0 v0] c IH]; simpl; intros Hnd Hin; [contradiction|].
  inversion Hnd as [|? ? Hnotin Hnd']; subst.
  destruct Hin as [Heq|Hin].
  - inversion Heq; subst. now rewrite Z.eqb_refl.
  - destruct (Z.eqb_spec k0 k) as [->|]; [|auto].
    exfalso. apply Hnotin. change k with (fst (k, v)). now apply in_map.
Qed.

Lemma dict_get_None (c : list (Z * Z)) (k : Z) :
  dict_get Z.eqb c k = None <-> ~ In k (map fst c).
Proof.
  induction c as [|[k0 v0] c IH]; simpl; [tauto|].
  destruct (Z.eqb_spec k0 k) as [->|Hne].
  - split; [discriminate|tauto].
  - rewrite IH. tauto.
Qed.

Lemma counter_add_getz (c : list (Z * Z)) (a k : Z) :
  getz (counter_add c a) k = if Z.eqb a k then getz c a + 1 else getz c k.
Proof.
  unfold getz, counter_add. rewrite dict_get_set.
  destruct (Z.eqb a k); reflexivity.
Qed.

Lemma counter_add_keys (c : list (Z * Z)) (a : Z) :
  map fst (counter_add c a) =
  if in_dec Z.eq_dec a (map fst c) then map fst c else map fst c ++ [a].
Proof. apply dict_set_keys. Qed.

Lemma counter_add_NoDup (c : list (Z * Z)) (a : Z) :
  NoDup (map fst c) -> NoDup (map fst (counter_add c a)).
Proof.
  intros Hnd. rewrite counter_add_keys.
  destruct (in_dec Z.eq_dec a (map fst c)) as [|Hnot]; [assumption|].
  apply NoDup_app; [assumption|repeat constructor; simpl; tauto|].
  intros x Hx [<-|[]]. contradiction.
Qed.

Lemma counter_fold_getz (ys : list Z) :
  forall c k, getz (fold_left counter_add ys c) k =
              getz c k + Z.of_nat (count_occ Z.eq_dec ys k).
Proof.
  induction ys as [|a ys IH]; intros c k; simpl; [lia|].
  rewrite IH, counter_add_getz.
  destruct (Z.eqb_spec a k) as [->|Hne]; destruct (Z.eq_dec _ k); try congruence; lia.
Qed.

Lemma counter_fold_NoDup (ys : list Z) :
  forall c, NoDup (map fst c) -> NoDup (map fst (fold_left counter_add ys c)).
Proof.
  induction ys as [|a ys IH]; intros c Hnd; simpl; [assumption|].
  apply IH, counter_add_NoDup, Hnd.
Qed.

(** Keys are never moved: the keys of the counter before the update are a
    prefix of its keys after it, and the new keys are the new elements. *)
Lemma counter_fold_keys (ys : list Z) :
  forall c, exists ext,
    map fst (fold_left counter_add ys c) = map fst c ++ ext /\
    (forall k, In k ext <-> In k ys /\ ~ In k (map fst c)).
Proof.
  induction ys as [|a ys IH]; intros c; simpl.
  - exists []. rewrite app_nil_r. split; [reflexivity|]. simpl; tauto.
  - destruct (IH (counter_add c a)) as (ext & Hk & Hext).
    rewrite Hk, counter_add_keys in *.
    destruct (in_dec Z.eq_dec a (map fst c)) as [Hin|Hnot].
    + exists ext. split; [reflexivity|]. intros k. rewrite Hext.
      split; [tauto|]. intros [[<-|Hy] Hn]; [contradiction|tauto].
    + exists (a :: ext). rewrite <- app_assoc. split; [reflexivity|].
      intros k. simpl. rewrite Hext, in_app_iff. simpl.
      destruct (Z.eq_dec a k) as [->|]; tauto.
Qed.

Lemma Counter_keys_In (ys : list Z) (k : Z) :
  In k (map fst (Counter ys)) <-> In k ys.
Proof.
  unfold Counter. destruct (counter_fold_keys ys []) as (ext & -> & Hext).
  simpl. rewrite Hext. simpl. tauto.
Qed.

Lemma Counter_NoDup (ys : list Z) : NoDup (map fst (Counter ys)).
Proof. apply counter_fold_NoDup. constructor. Qed.

Lemma Counter_items (ys : list Z) (k n : Z) :
  In (k, n) (Counter ys) -> In k ys /\ n = Z.of_nat (count_occ Z.eq_dec ys k).
Proof.
  intros Hin. split.
  - apply Counter_keys_In. change k with (fst (k, n)). now apply in_map.
  - pose proof (dict_get_In _ _ _ (Counter_NoDup ys) Hin) as Hget.
    pose proof (counter_fold_getz ys [] k) as Hc. fold (Counter ys) in Hc.
    unfold getz in Hc. rewrite Hget in Hc. simpl in Hc. exact Hc.
Qed.

Lemma Counter_key_item (ys : list Z) (k : Z) :
  In k ys -> In (k, Z.of_nat (count_occ Z.eq_dec ys k)) (Counter ys).
Proof.
  intros Hin. apply Counter_keys_In in Hin. apply in_map_iff in Hin.
  destruct Hin as ([k' n] & Hk & Hin). simpl in Hk. subst k'.
  destruct (Counter_items _ _ _ Hin) as [_ ->]. exact Hin.
Qed.

Lemma NoDup_split_unique (l1 l2 r1 r2 : list Z) (x : Z) :
  NoDup (l1 ++ x :: r1) -> l1 ++ x :: r1 = l2 ++ x :: r2 -> l1 = l2.
Proof.
  revert l2. induction l1 as [|a l1 IH]; intros l2 Hnd Heq.
  - destruct l2 as [|b l2]; [reflexivity|]. simpl in *.
    inversion Heq; subst. inversion Hnd as [|? ? Hn _]; subst.
    exfalso. apply Hn. apply in_or_app. right. left. reflexivity.
  - destruct l2 as [|b l2]; simpl in *.
    + inversion Heq; subst. inversion Hnd as [|? ? Hn _]; subst.
      exfalso. apply Hn. apply in_or_app. right. left. reflexivity.
    + inversion Heq; subst. inversion Hnd; subst. f_equal. eauto.
Qed.

(** The keys met before the first occurrence of [l] are exactly the keys of
    the counter in front of [l]. *)
Lemma Counter_before (a b : list Z) (l : Z) (p s : list (Z * Z)) (n : Z) :
  ~ In l a -> Counter (a ++ l :: b) = p ++ (l, n) :: s ->
  forall v, In v a -> In v (map fst p).
Proof.
  intros Hnot Hc v Hv.
  pose proof (Counter_NoDup (a ++ l :: b)) as Hnd.
  assert (Hkeys : exists ext,
             map fst (Counter (a ++ l :: b)) = map fst (Counter a) ++ l :: ext).
  { unfold Counter at 1. rewrite fold_left_app. fold (Counter a). simpl.
    destruct (counter_fold_keys b (counter_add (Counter a) l)) as (ext & -> & _).
    rewrite counter_add_keys.
    destruct (in_dec Z.eq_dec l (map fst (Counter a))) as [Hin|_].
    - exfalso. apply Hnot. apply (proj1 (Counter_keys_In a l)). exact Hin.
    - exists ext. rewrite <- app_assoc. reflexivity. }
  destruct Hkeys as (ext & Hkeys).
  rewrite Hc, map_app in Hkeys. simpl in Hkeys.
  rewrite Hc, map_app in Hnd. simpl in Hnd.
  rewrite (NoDup_split_unique _ _ _ _ _ Hnd Hkeys).
  now apply Counter_keys_In.
Qed.

Lemma most_common_label_first_mode (ys : list Z) (l : Z) :
  most_common_label ys = Ok l -> first_mode ys l.
Proof.
  unfold most_common_label. intros H.
  pose proof (most_common_head (Counter ys)) as Hh.
  destruct (most_common (Counter ys)) as [|[k n] r]; [discriminate|].
  inversion H; subst k; clear H.
  destruct Hh as (p & s & Hc & Hp & Hs). simpl in Hp, Hs.
  assert (Hl : In (l, n) (Counter ys)).
  { rewrite Hc. apply in_or_app. right. left. reflexivity. }
  destruct (Counter_items _ _ _ Hl) as [Hin Hn].
  repeat split.
  - exact Hin.
  - intros v. destruct (in_dec Z.eq_dec v ys) as [Hv|Hv].
    + pose proof (Counter_key_item _ _ Hv) as Hitem. rewrite Hc in Hitem.
      apply in_app_or in Hitem as [Hi|[Hi|Hi]].
      * specialize (Hp _ Hi). simpl in Hp. lia.
      * inversion Hi; subst. lia.
      * specialize (Hs _ Hi). simpl in Hs. lia.
    + apply (count_occ_not_In Z.eq_dec) in Hv. lia.
  - intros a b Hys Hnot v Hv. subst ys.
    pose proof (Counter_before a b l p s n Hnot Hc v Hv) as Hk.
    apply in_map_iff in Hk as ([v' m] & Hfst & Hpm). simpl in Hfst. subst v'.
    pose proof (Hp _ Hpm) as Hlt. simpl in Hlt.
    assert (Hitem : In (v, m) (Counter (a ++ l :: b))).
    { rewrite Hc. apply in_or_app. left. exact Hpm. }
    destruct (Counter_items _ _ _ Hitem) as [_ Hm]. lia.
Qed.

Lemma most_common_label_total (ys : list Z) :
  ys <> [] -> exists l, most_common_label ys = Ok l.
Proof.
  intros Hne. unfold most_common_label.
  pose proof (most_common_head (Counter ys)) as Hh.
  destruct (most_common (Counter ys)) as [|[k n] r].
  - destruct ys as [|y ys]; [congruence|]. exfalso.
    assert (Hin : In y (map fst (Counter (y :: ys)))).
    { apply Counter_keys_In. left. reflexivity. }
    rewrite Hh in Hin. exact Hin.
  - eexists; reflexivity.
Qed.

Lemma in_split_first (ys : list Z) (x : Z) :
  In x ys -> exists a b, ys = a ++ x :: b /\ ~ In x a.
Proof.
  induction ys as [|y ys IH]; intros Hx; [contradiction|].
  destruct (Z.eq_dec y x) as [->|Hne].
  - exists [], ys. split; [reflexivity|]. simpl; tauto.
  - destruct Hx as [Hx|Hx]; [congruence|].
    destruct (IH Hx) as (a & b & -> & Hn).
    exists (y :: a), b. split; [reflexivity|].
    simpl. intros [?|?]; [congruence|contradiction].
Qed.

(** The first mode is unique: the characterisation determines the label. *)
Lemma first_mode_unique (ys : list Z) (l l' : Z) :
  first_mode ys l -> first_mode ys l' -> l = l'.
Proof.
  intros (Hin & Hmax & Hfirst) (Hin' & Hmax' & Hfirst').
  destruct (Z.eq_dec l l') as [|Hne]; [assumption|exfalso].
  destruct (in_split_first ys l Hin) as (a & b & Hys & Hna).
  destruct (in_dec Z.eq_dec l' a) as [Hl'a|Hl'a].
  - pose proof (Hfirst a b Hys Hna l' Hl'a). pose proof (Hmax' l). lia.
  - assert (Hb : In l' b).
    { rewrite Hys in Hin'.
      apply in_app_or in Hin' as [?|[?|?]]; [contradiction|congruence|assumption]. }
    destruct (in_split_first b l' Hb) as (b1 & b2 & Hbs & Hnb1).
    assert (Hys' : ys = (a ++ l :: b1) ++ l' :: b2).
    { rewrite Hys, Hbs, <- app_assoc. reflexivity. }
    assert (Hnot : ~ In l' (a ++ l :: b1)).
    { intros Hi. apply in_app_or in Hi as [?|[?|?]];
        [contradiction|congruence|contradiction]. }
    assert (Hl : In l (a ++ l :: b1)).
    { apply in_or_app. right. left. reflexivity. }
    pose proof (Hfirst' _ _ Hys' Hnot l Hl). pose proof (Hmax l'). lia.
Qed.

(** ** argmin and argmax: the first best index *)

Section ScanBest.
Variable better : Q -> Q -> bool.
(** [le a b]: [a] is at least as good as [b]. *)
Variable le : Q -> Q -> Prop.
Hypothesis better_true : forall x b, better x b = true -> ~ le b x.
Hypothesis better_false : forall x b, better x b = false -> le b x.
Hypothesis le_trans : forall x y z, le x y -> le y z -> le x z.
Hypothesis le_total : forall x y, le x y \/ le y x.

Lemma scan_best_spec (l : list Q) :
  forall bi b i,
    (Np.scan_best better bi b i l = bi /\ forall x, In x l -> le b x) \/
    (exists j, Np.scan_best better bi b i l = (i + j)%nat /\
               ~ le b (nth j l 0%Q) /\ first_best le l j).
Proof.
  induction l as [|x r IH]; intros bi b i; simpl.
  - left. split; [reflexivity|]. intros; contradiction.
  - destruct (better x b) eqn:Hb.
    + apply better_true in Hb.
      destruct (IH i x (S i)) as [[Hr Hall]|(j & Hr & Hj & Hlen & Hmin & Hpre)].
      * right. exists 0%nat. rewrite Hr, Nat.add_0_r.
        split; [reflexivity|]. split; [exact Hb|].
        split; [simpl; lia|]. split; [|intros; lia].
        intros [|k] Hk; simpl.
        -- destruct (le_total x x); assumption.
        -- apply Hall, nth_In. simpl in Hk. lia.
      * assert (Hjx : le (nth j r 0%Q) x)
          by (destruct (le_total (nth j r 0%Q) x); tauto).
        right. exists (S j). rewrite Hr.
        split; [lia|]. split; [simpl; eauto|].
        split; [simpl; lia|]. split.
        -- intros [|k] Hk; simpl; [exact Hjx|]. apply Hmin. simpl in Hk. lia.
        -- intros [|k] Hk; simpl; [exact Hj|]. apply Hpre. lia.
    + apply better_false in Hb.
      destruct (IH bi b (S i)) as [[Hr Hall]|(j & Hr & Hj & Hlen & Hmin & Hpre)].
      * left. split; [exact Hr|]. intros y [<-|Hy]; auto.
      * assert (Hjb : le (nth j r 0%Q) b)
          by (destruct (le_total (nth j r 0%Q) b); tauto).
        right. exists (S j). rewrite Hr.
        split; [lia|]. split; [simpl; exact Hj|].
        split; [simpl; lia|]. split.
        -- intros [|k] Hk; simpl; [eauto|]. apply Hmin. simpl in Hk. lia.
        -- intros [|k] Hk; simpl; [eauto|]. apply Hpre. lia.
Qed.

Lemma scan_best_first (x : Q) (r : list Q) :
  first_best le (x :: r) (Np.scan_best better 0 x 1 r).
Proof.
  destruct (scan_best_spec r 0%nat x 1%nat)
    as [[-> Hall]|(j & -> & Hj & Hlen & Hmin & Hpre)].
  - split; [simpl; lia|]. split; [|intros; lia].
    intros [|k] Hk; simpl.
    + destruct (le_total x x); assumption.
    + apply Hall, nth_In. simpl in Hk. lia.
  - assert (Hjx : le (nth j r 0%Q) x)
      by (destruct (le_total (nth j r 0%Q) x); tauto).
    change (1 + j)%nat with (S j).
    split; [simpl; lia|]. split.
    + intros [|k] Hk; simpl; [exact Hjx|]. apply Hmin. simpl in Hk. lia.
    + intros [|k] Hk; simpl; [exact Hj|]. apply Hpre. lia.
Qed.
End ScanBest.

Lemma Qltb_true (x y : Q) : Np.Qltb x y = true -> ~ (y <= x)%Q.
Proof.
  unfold Np.Qltb. intros H Hle. apply Qle_bool_iff in Hle.
  rewrite Hle in H. discriminate.
Qed.

Lemma Qltb_false (x y : Q) : Np.Qltb x y = false -> (y <= x)%Q.
Proof.
  unfold Np.Qltb. intros H. apply Qle_bool_iff.
  destruct (Qle_bool y x); [reflexivity|discriminate].
Qed.

Lemma Qle_total (x y : Q) : (x <= y)%Q \/ (y <= x)%Q.
Proof. destruct (Qlt_le_dec x y) as [H|H]; [left; apply Qlt_le_weak, H|right; exact H]. Qed.

Lemma argmin_first_min (l : list Q) :
  l <> [] -> exists i, Np.argmin l = Ok (Z.of_nat i) /\ first_min l i.
Proof.
  destruct l as [|x r]; [congruence|]. intros _.
  eexists. split; [reflexivity|].
  destruct (scan_best_first Np.Qltb Qle Qltb_true Qltb_false Qle_trans Qle_total x r)
    as (Hlen & Hmin & Hpre).
  split; [exact Hlen|]. split; [exact Hmin|].
  intros j Hj. apply Qnot_le_lt. auto.
Qed.

Lemma argmax_first_max (l : list Q) :
  l <> [] -> exists i, Np.argmax l = Ok (Z.of_nat i) /\ first_max l i.
Proof.
  destruct l as [|x r]; [congruence|]. intros _.
  eexists. split; [reflexivity|].
  destruct (scan_best_first (fun a b => Np.Qltb b a) (fun a b => (b <= a)%Q))
    with (x := x) (r := r) as (Hlen & Hmin & Hpre).
  - intros a b H. apply Qltb_true in H. exact H.
  - intros a b H. apply Qltb_false in H. exact H.
  - intros a b c H1 H2. eapply Qle_trans; eauto.
  - intros a b. apply Qle_total.
  - split; [exact Hlen|]. split; [exact Hmin|].
    intros j Hj. apply Qnot_le_lt. auto.
Qed.

(** ** Nearest-sample lookup and epoch extraction *)

Lemma sorted_nth_lt (l : list Q) :
  StronglySorted Qlt l ->
  forall i j, (i < j)%nat -> (j < length l)%nat -> (nth i l 0 < nth j l 0)%Q.
Proof.
  induction 1 as [|x l Hs IH Hall]; intros i j Hij Hj; simpl in Hj; [lia|].
  destruct j as [|j]; [lia|]. destruct i as [|i]; simpl.
  - rewrite Forall_forall in Hall. apply Hall, nth_In. lia.
  - apply IH; lia.
Qed.

Lemma abs_diff_nth (t : Q) (l : list Q) (i : nat) :
  (i < length l)%nat ->
  nth i (Np.abs_diff t l) 0%Q = Qabs (t - nth i l 0)%Q.
Proof.
  intros Hi. unfold Np.abs_diff.
  rewrite (nth_indep _ 0%Q (Qabs (t - 0)%Q)) by (rewrite length_map; exact Hi).
  apply (map_nth (fun s => Qabs (t - s))).
Qed.

Lemma Qabs_diff_zero (t s : Q) : (Qabs (t - s) <= 0)%Q -> (s == t)%Q.
Proof.
  intros H. apply Qabs_diff_Qle_condition in H.
  destruct H as [H1 H2]. apply Qle_antisym.
  - setoid_replace t with (t + 0)%Q by ring. exact H2.
  - setoid_replace t with (t - 0)%Q by ring. exact H1.
Qed.

(** C4: the nearest-sample lookup returns the lowest index at which the
    absolute difference to the event timestamp is minimal; on strictly
    increasing timestamps (the invariant of a recording), a timestamp equal
    to [timestamps[k]] gives [k]. *)
Theorem nearest_sample_lowest_index (t : Q) (timestamps : list Q) :
  (timestamps <> [] ->
   exists i, Widget.nearest_sample t timestamps = Ok (Z.of_nat i) /\
             first_min (Np.abs_diff t timestamps) i) /\
  (forall k, StronglySorted Qlt timestamps ->
             (k < length timestamps)%nat ->
             (nth k timestamps 0 == t)%Q ->
             Widget.nearest_sample t timestamps = Ok (Z.of_nat k)).
Proof.
  assert (Hfirst : timestamps <> [] ->
     exists i, Widget.nearest_sample t timestamps = Ok (Z.of_nat i) /\
               first_min (Np.abs_diff t timestamps) i).
  { intros Hne. apply argmin_first_min.
    destruct timestamps; [congruence|discriminate]. }
  split; [exact Hfirst|].
  intros k Hs Hk Heq.
  destruct Hfirst as (i & Hi & Hlen & Hmin & _).
  { destruct timestamps; [simpl in Hk; lia|discriminate]. }
  unfold Np.abs_diff in Hlen. rewrite length_map in Hlen.
  assert (Hik : (nth i timestamps 0 == nth k timestamps 0)%Q).
  { rewrite Heq. apply Qabs_diff_zero.
    specialize (Hmin k). unfold Np.abs_diff in Hmin at 1.
    rewrite length_map in Hmin. specialize (Hmin Hk).
    rewrite !abs_diff_nth in Hmin by assumption.
    eapply Qle_trans; [exact Hmin|].
    rewrite Heq. setoid_replace (t - t)%Q with 0%Q by ring. discriminate. }
  destruct (Nat.lt_trichotomy i k) as [Hlt|[->|Hgt]]; [|exact Hi|].
  - pose proof (sorted_nth_lt _ Hs i k Hlt Hk) as H.
    rewrite Hik in H. exfalso. exact (Qlt_irrefl _ H).
  - pose proof (sorted_nth_lt _ Hs k i Hgt Hlen) as H.
    rewrite Hik in H. exfalso. exact (Qlt_irrefl _ H).
Qed.

Lemma nearest_sample_lowest_index_witness :
  grid_ts <> [] /\ StronglySorted Qlt grid_ts /\
  (2 < length grid_ts)%nat /\ (nth 2 grid_ts 0 == 2 # 500)%Q /\
  (exists i, Widget.nearest_sample (1 # 400)%Q grid_ts = Ok (Z.of_nat i) /\
             first_min (Np.abs_diff (1 # 400)%Q grid_ts) i) /\
  Widget.nearest_sample (2 # 500)%Q grid_ts = Ok 2.
Proof.
  assert (Hne : grid_ts <> []) by discriminate.
  assert (Hs : StronglySorted Qlt grid_ts).
  { repeat constructor; unfold Qlt; simpl; lia. }
  assert (Hk : (2 < length grid_ts)%nat) by (simpl; lia).
  assert (He : (nth 2 grid_ts 0 == 2 # 500)%Q) by reflexivity.
  split; [exact Hne|]. split; [exact Hs|]. split; [exact Hk|].
  split; [exact He|]. split.
  - exact (proj1 (nearest_sample_lowest_index (1 # 400)%Q grid_ts) Hne).
  - exact (proj2 (nearest_sample_lowest_index (2 # 500)%Q grid_ts) 2%nat
             Hs Hk He).
Defined.

Lemma slice_length {A : Type} (l : list A) (start stop : Z) :
  Z.of_nat (length (slice l start stop)) =
  Z.max 0 (slice_bound (Z.of_nat (length l)) stop -
           slice_bound (Z.of_nat (length l)) start).
Proof.
  unfold slice, slice_bound. rewrite length_firstn, length_skipn.
  destruct (Z.ltb_spec stop 0), (Z.ltb_spec start 0); lia.
Qed.

Lemma extract_epoch_Ok (vals : Np.matrix) (timestamps : list Q) (t : Q)
  (window : Z) :
  timestamps <> [] ->
  exists i, Widget.nearest_sample t timestamps = Ok (Z.of_nat i) /\
            (i < length timestamps)%nat /\
            Widget.extract_epoch vals timestamps t (Ok window) =
            Ok [map (fun channel =>
                       slice channel (Z.of_nat i - window) (Z.of_nat i)) vals].
Proof.
  intros Hne.
  destruct (argmin_first_min (Np.abs_diff t timestamps))
    as (i & Hi & Hlen & _).
  { destruct timestamps; [congruence|discriminate]. }
  unfold Np.abs_diff in Hlen. rewrite length_map in Hlen.
  exists i. split; [exact Hi|]. split; [exact Hlen|].
  unfold Widget.extract_epoch, Widget.nearest_sample. rewrite Hi. reflexivity.
Qed.

(** C2 (as stated, refuted): in the scenario of the design document, event at
    0.2 s and window of 500 samples, the start index is -400 and the
    extraction returns an epoch without samples; nothing is raised. *)
Lemma extract_epoch_negative_start_not_raised :
  Widget.nearest_sample (100 # 500)%Q scenario_ts = Ok 100 /\
  100 - 500 < 0 /\
  Widget.extract_epoch scenario_values scenario_ts (100 # 500)%Q (Ok 500)
  = Ok [[ []; [] ]] /\
  Widget.extract_epoch scenario_values scenario_ts (100 # 500)%Q (Ok 500)
  <> Raise OutOfBoundsError.
Proof.
  assert (H : Widget.extract_epoch scenario_values scenario_ts
                (100 # 500)%Q (Ok 500) = Ok [[ []; [] ]])
    by (vm_compute; reflexivity).
  split; [vm_compute; reflexivity|]. split; [lia|]. split; [exact H|].
  rewrite H. discriminate.
Qed.

(** C2 (amended): epoch extraction has no bounds check and never raises
    [OutOfBoundsError].  Whenever [end_idx - window >= 0], the boundary
    [end_idx - window = 0] included, it succeeds and returns a full-length
    epoch: one row per channel, [window] samples in each. *)
Theorem extract_epoch_never_out_of_bounds
  (vals : Np.matrix) (timestamps : list Q) (t : Q) (window : Z) :
  Widget.extract_epoch vals timestamps t (Ok window) <> Raise OutOfBoundsError /\
  (timestamps <> [] ->
   exists i,
     Widget.nearest_sample t timestamps = Ok (Z.of_nat i) /\
     (0 <= window ->
      Forall (fun channel => length channel = length timestamps) vals ->
      0 <= Z.of_nat i - window ->
      exists epoch,
        Widget.extract_epoch vals timestamps t (Ok window) = Ok [epoch] /\
        length epoch = length vals /\
        Forall (fun channel => Z.of_nat (length channel) = window) epoch)).
Proof.
  split.
  - destruct timestamps as [|s r]; [discriminate|].
    destruct (extract_epoch_Ok vals (s :: r) t window) as (i & _ & _ & ->);
      discriminate.
  - intros Hne.
    destruct (extract_epoch_Ok vals timestamps t window Hne)
      as (i & Hi & Hlen & He).
    exists i. split; [exact Hi|]. intros Hw Hshape Hstart.
    eexists. split; [exact He|]. split; [apply length_map|].
    apply Forall_map. eapply Forall_impl; [|exact Hshape].
    intros channel Hc. simpl in Hc.
    rewrite slice_length, Hc. unfold slice_bound.
    destruct (Z.ltb_spec (Z.of_nat i) 0);
      destruct (Z.ltb_spec (Z.of_nat i - window) 0); lia.
Qed.

Lemma extract_epoch_never_out_of_bounds_witness :
  small_ts <> [] /\ 0 <= 2 /\
  Forall (fun channel => length channel = length small_ts) small_values /\
  exists i,
    Widget.nearest_sample 1%Q small_ts = Ok (Z.of_nat i) /\
    0 <= Z.of_nat i - 2 /\
    Z.of_nat i - 2 = 0 /\
    exists epoch,
      Widget.extract_epoch small_values small_ts 1%Q (Ok 2) = Ok [epoch] /\
      length epoch = length small_values /\
      Forall (fun channel => Z.of_nat (length channel) = 2) epoch.
Proof.
  assert (Hne : small_ts <> []) by discriminate.
  assert (Hw : 0 <= 2) by lia.
  assert (Hshape : Forall (fun channel => length channel = length small_ts)
                     small_values) by (repeat constructor).
  split; [exact Hne|]. split; [exact Hw|]. split; [exact Hshape|].
  destruct (proj2 (extract_epoch_never_out_of_bounds small_values small_ts
                     1%Q 2) Hne) as (i & Hi & Hfull).
  assert (Hidx : Z.of_nat i = 2).
  { assert (H2 : Widget.nearest_sample 1%Q small_ts = Ok 2) by reflexivity.
    rewrite H2 in Hi. inversion Hi. reflexivity. }
  assert (Hstart : 0 <= Z.of_nat i - 2) by lia.
  exists i. split; [exact Hi|]. split; [exact Hstart|]. split; [lia|].
  exact (Hfull Hw Hshape Hstart).
Defined.

(** C6 (as stated, refuted): one channel of 3 samples with 5 timestamps;
    the extraction goes on and returns a single sample where the window asks
    for two. *)
Lemma extract_epoch_length_mismatch_not_raised :
  Forall (fun channel => length channel <> length long_ts) short_values /\
  Widget.extract_epoch short_values long_ts 4%Q (Ok 2) = Ok [[[3%Q]]] /\
  Widget.extract_epoch short_values long_ts 4%Q (Ok 2)
  <> Raise ConfigurationError.
Proof.
  assert (H : Widget.extract_epoch short_values long_ts 4%Q (Ok 2)
              = Ok [[[3%Q]]])
    by (vm_compute; reflexivity).
  split; [repeat constructor; simpl; lia|]. split; [exact H|].
  rewrite H. discriminate.
Qed.

(** C6 (amended): epoch extraction does not compare the number of timestamps
    with the sample axis of the values.  Whatever the two lengths are, it
    returns a slice as soon as there is one timestamp, and the only exception
    it raises is the [ValueError] of [argmin] on an empty timestamp vector:
    never [ConfigurationError]. *)
Theorem extract_epoch_no_length_check
  (vals : Np.matrix) (timestamps : list Q) (t : Q) (window : Z) :
  (timestamps <> [] ->
   exists epoch, Widget.extract_epoch vals timestamps t (Ok window) = Ok epoch) /\
  (forall e, Widget.extract_epoch vals timestamps t (Ok window) = Raise e ->
             e = ValueError /\ timestamps = []).
Proof.
  split.
  - intros Hne.
    destruct (extract_epoch_Ok vals timestamps t window Hne) as (i & _ & _ & ->).
    eexists; reflexivity.
  - intros e He. destruct timestamps as [|s r].
    + inversion He. split; reflexivity.
    + destruct (extract_epoch_Ok vals (s :: r) t window) as (i & _ & _ & H);
        [discriminate|]. rewrite H in He. discriminate.
Qed.

Lemma extract_epoch_no_length_check_witness :
  long_ts <> [] /\
  (exists epoch,
      Widget.extract_epoch short_values long_ts 4%Q (Ok 2) = Ok epoch) /\
  Widget.extract_epoch short_values [] 4%Q (Ok 2) = Raise ValueError /\
  ValueError = ValueError /\ @nil Q = [].
Proof.
  assert (Hne : long_ts <> []) by discriminate.
  assert (Hempty : Widget.extract_epoch short_values [] 4%Q (Ok 2)
                   = Raise ValueError) by reflexivity.
  split; [exact Hne|]. split.
  - exact (proj1 (extract_epoch_no_length_check short_values long_ts 4%Q 2) Hne).
  - split; [exact Hempty|].
    exact (proj2 (extract_epoch_no_length_check short_values [] 4%Q 2)
             ValueError Hempty).
Defined.

(** ** The event decoder *)

Lemma digits_fuel_length (f : nat) :
  forall n acc, (S (String.length acc) <= String.length (digits_fuel f n acc))%nat.
Proof.
  induction f as [|f IH]; intros n acc; simpl.
  - lia.
  - destruct (n <? 10); simpl; [lia|].
    specialize (IH (n / 10) (String (digit_char (n mod 10)) acc)).
    simpl in IH. lia.
Qed.

Lemma digits_one (f : nat) (n : Z) (acc : string) :
  n < 10 -> digits_fuel f n acc = String (digit_char (n mod 10)) acc.
Proof.
  intros Hn. destruct f; simpl; [reflexivity|].
  destruct (Z.ltb_spec n 10); [reflexivity|lia].
Qed.

Lemma log2_fuel (n : Z) (k : Z) :
  2 ^ k <= n -> 0 <= k -> (Z.to_nat k <= Z.to_nat (Z.log2 n))%nat.
Proof.
  intros Hn Hk. apply Z2Nat.inj_le; [lia|apply Z.log2_nonneg|].
  rewrite <- (Z.log2_pow2 k Hk). apply Z.log2_le_mono. exact Hn.
Qed.

Lemma digits_two (m : Z) :
  10 <= m <= 99 ->
  digits m = String (digit_char (m / 10))
               (String (digit_char (m mod 10)) EmptyString).
Proof.
  intros Hm. unfold digits.
  pose proof (log2_fuel m 3) as Hf. change (2 ^ 3) with 8 in Hf.
  destruct (Z.to_nat (Z.log2 m)) as [|f]; [simpl in Hf; lia|]. simpl.
  destruct (Z.ltb_spec m 10); [lia|].
  rewrite digits_one by (apply Z.div_lt_upper_bound; lia).
  rewrite (Z.mod_small (m / 10)); [reflexivity|].
  split; [apply Z.div_pos; lia|apply Z.div_lt_upper_bound; lia].
Qed.

Lemma digits_three (m : Z) :
  100 <= m -> (3 <= String.length (digits m))%nat.
Proof.
  intros Hm. unfold digits.
  pose proof (log2_fuel m 6) as Hf. change (2 ^ 6) with 64 in Hf.
  destruct (Z.to_nat (Z.log2 m)) as [|[|f]]; try (simpl in Hf; lia). simpl.
  destruct (Z.ltb_spec m 10); [lia|].
  destruct (Z.ltb_spec (m / 10) 10) as [Hlt|_].
  - exfalso. assert (10 <= m / 10) by (apply Z.div_le_lower_bound; lia). lia.
  - match goal with |- (_ <= String.length (digits_fuel ?f ?n ?acc))%nat =>
      pose proof (digits_fuel_length f n acc) as Hl end.
    simpl in Hl. lia.
Qed.

Lemma str_two_digits (m : Z) :
  0 <= m -> (String.length (str m) = 2%nat <-> 10 <= m <= 99).
Proof.
  intros Hm. unfold str. destruct (Z.ltb_spec m 0); [lia|].
  split.
  - intros Hlen. destruct (Z.lt_ge_cases m 10) as [Hlt|Hge].
    + unfold digits in Hlen. rewrite digits_one in Hlen by exact Hlt.
      simpl in Hlen. discriminate.
    + destruct (Z.lt_ge_cases m 100) as [Hlt|Hge']; [lia|].
      pose proof (digits_three m Hge'). lia.
  - intros Hr. rewrite digits_two by exact Hr. reflexivity.
Qed.

Lemma int_of_digit_char (d : Z) :
  0 <= d <= 9 -> int_of_char (digit_char d) = Ok d.
Proof.
  intros Hd.
  assert (H : d = 0 \/ d = 1 \/ d = 2 \/ d = 3 \/ d = 4 \/ d = 5 \/ d = 6 \/
              d = 7 \/ d = 8 \/ d = 9) by lia.
  repeat (destruct H as [->|H]; [reflexivity|]). subst d. reflexivity.
Qed.

Lemma str_first_digit (m : Z) :
  10 <= m <= 99 -> int_first_char (str m) = Ok (m / 10).
Proof.
  intros Hm. unfold str. destruct (Z.ltb_spec m 0); [lia|].
  rewrite digits_two by exact Hm. simpl. apply int_of_digit_char.
  split; [apply Z.div_pos; lia|].
  assert (m / 10 < 10) by (apply Z.div_lt_upper_bound; lia). lia.
Qed.

Lemma decode_step_nonneg (markers : list (Z * string)) (acc : list (Z * Z))
  (ev : Z * Z * Z) :
  0 <= snd ev ->
  Widget.decode_step markers (Ok acc) ev =
  Ok (acc ++ if accepted markers ev then [decoded ev] else []).
Proof.
  destruct ev as [[t p] m]. simpl. intros Hm.
  unfold Widget.decode_step, accepted, decoded. simpl.
  pose proof (str_two_digits m Hm) as Hlen.
  destruct (Nat.eqb_spec (String.length (str m)) 2) as [H2|H2].
  - apply Hlen in H2. rewrite (str_first_digit m H2). simpl.
    destruct (Z.leb_spec 10 m); [|lia]. destruct (Z.leb_spec m 99); [|lia].
    simpl. destruct (dict_mem Z.eqb markers (m / 10)); [reflexivity|].
    now rewrite app_nil_r.
  - destruct (Z.leb_spec 10 m); simpl; [|now rewrite app_nil_r].
    destruct (Z.leb_spec m 99); simpl; [|now rewrite app_nil_r].
    exfalso. apply H2, Hlen. lia.
Qed.

Lemma decode_events_nonneg (markers : list (Z * string)) (evs : list (Z * Z * Z)) :
  Forall (fun ev => 0 <= snd ev) evs ->
  forall acc,
    fold_left (Widget.decode_step markers) evs (Ok acc) =
    Ok (acc ++ map decoded (filter (accepted markers) evs)).
Proof.
  induction 1 as [|ev evs Hev _ IH]; intros acc; cbn [fold_left filter].
  - simpl. now rewrite app_nil_r.
  - rewrite decode_step_nonneg by exact Hev. rewrite IH, <- app_assoc.
    destruct (accepted markers ev); reflexivity.
Qed.

(** C5: on non-negative marker codes (marker codes are positive integers),
    the decoder keeps an event exactly when its marker has two decimal
    digits, that is lies between 10 and 99, and its first digit [marker / 10]
    is a key of the label-decoding table; it raises nothing for the others;
    the kept events come out in order as
    [(sample / sampling_rate, first digit)]. *)
Theorem event_decoder_two_digit_filter
  (w : Widget.TestWidget) (new : string) (raw : Widget.Raw) :
  new <> EmptyString ->
  Forall (fun ev => 0 <= snd ev) (Widget.annotation_events raw) ->
  (forall m, 0 <= m ->
             (String.length (str m) = 2%nat <-> 10 <= m <= 99) /\
             (10 <= m <= 99 -> int_first_char (str m) = Ok (m / 10))) /\
  Widget.decode_events (Widget.markers_decoding w) (Widget.annotation_events raw)
  = Ok (map decoded (filter (accepted (Widget.markers_decoding w))
                       (Widget.annotation_events raw))) /\
  exists w',
    Widget.on_run_change w new raw = (None, w') /\
    option_map Widget.events (Widget.data w') =
    Some (map (fun ev => ((inject_Z (fst (fst ev)) / Widget.sfreq raw)%Q,
                          snd ev / 10))
            (filter (accepted (Widget.markers_decoding w))
               (Widget.annotation_events raw))).
Proof.
  intros Hnew Hpos.
  pose proof (decode_events_nonneg (Widget.markers_decoding w) _ Hpos [])
    as Hdec. simpl in Hdec.
  split; [|split].
  - intros m Hm. split; [apply str_two_digits, Hm|apply str_first_digit].
  - exact Hdec.
  - unfold Widget.on_run_change.
    destruct (String.eqb_spec new EmptyString) as [|_]; [contradiction|].
    simpl. unfold Widget.decode_events. rewrite Hdec.
    eexists. split; [reflexivity|]. simpl.
    unfold Widget.to_seconds. rewrite map_map. reflexivity.
Qed.

Lemma event_decoder_two_digit_filter_witness :
  "run.vhdr"%string <> EmptyString /\
  Forall (fun ev => 0 <= snd ev) (Widget.annotation_events example_raw) /\
  int_first_char (str 25) = Ok (25 / 10) /\
  exists w',
    Widget.on_run_change fresh_widget "run.vhdr" example_raw = (None, w') /\
    option_map Widget.events (Widget.data w') =
    Some [((100 # 500)%Q, 1); ((300 # 500)%Q, 2); ((500 # 500)%Q, 3)].
Proof.
  assert (H1 : "run.vhdr"%string <> EmptyString) by discriminate.
  assert (H2 : Forall (fun ev => 0 <= snd ev)
                 (Widget.annotation_events example_raw))
    by (repeat constructor; simpl; lia).
  split; [exact H1|]. split; [exact H2|].
  destruct (event_decoder_two_digit_filter fresh_widget "run.vhdr" example_raw
              H1 H2)
    as (Hdigits & _ & w' & Hrun & Hev).
  split.
  - apply (Hdigits 25); lia.
  - exists w'. split; [exact Hrun|]. rewrite Hev. reflexivity.
Defined.

(** ** The ensemble aggregator *)

Lemma vec_add_nth (a : list Q) :
  forall b c, Np.vec_add a b = Ok c ->
    length c = length a /\ length c = length b /\
    forall j, (nth j c 0 == nth j a 0 + nth j b 0)%Q.
Proof.
  induction a as [|x a IH]; intros [|y b] c H; simpl in H; try discriminate.
  - inversion H. repeat split. intros [|j]; reflexivity.
  - apply bind_Ok in H as (r & Hr & H). inversion H; subst.
    destruct (IH _ _ Hr) as (H1 & H2 & H3).
    simpl. repeat split; try congruence.
    intros [|j]; simpl; [reflexivity|apply H3].
Qed.

Lemma mat_add_nth (a : Np.matrix) :
  forall b c, Np.mat_add a b = Ok c ->
    length c = length a /\ length c = length b /\
    forall i j, (nth j (nth i c []) 0 ==
                 nth j (nth i a []) 0 + nth j (nth i b []) 0)%Q.
Proof.
  induction a as [|x a IH]; intros [|y b] c H; simpl in H; try discriminate.
  - inversion H. repeat split. intros [|i] [|j]; reflexivity.
  - apply bind_Ok in H as (s & Hs & H). apply bind_Ok in H as (r & Hr & H).
    inversion H; subst.
    destruct (IH _ _ Hr) as (H1 & H2 & H3).
    destruct (vec_add_nth _ _ _ Hs) as (_ & _ & H4).
    simpl. repeat split; try congruence.
    intros [|i] j; simpl; [apply H4|apply H3].
Qed.

Lemma fold_mat_add_Raise (ms : list Np.matrix) (e : exn) :
  fold_left (fun acc x => a <- acc ;; Np.mat_add a x) ms (Raise e) = Raise e.
Proof. induction ms as [|m ms IH]; simpl; [reflexivity|exact IH]. Qed.

Lemma fold_Qplus_compat (l : list Q) :
  forall x y, (x == y)%Q -> (fold_left Qplus l x == fold_left Qplus l y)%Q.
Proof.
  induction l as [|z l IH]; intros x y Hxy; simpl; [exact Hxy|].
  apply IH. rewrite Hxy. reflexivity.
Qed.

(** Every entry of [np.sum(y_prob, axis=0)] is the sum of the entries of the
    models' matrices at the same place, and the sum has their shape. *)
Lemma sum_axis0_entry (ms : list Np.matrix) :
  forall m y_probs, Np.sum_axis0 (m :: ms) = Ok y_probs ->
    length y_probs = length m /\
    forall i j,
      (nth j (nth i y_probs []) 0 ==
       fold_left Qplus (map (fun x => nth j (nth i x []) 0%Q) ms)
         (nth j (nth i m []) 0))%Q.
Proof.
  unfold Np.sum_axis0.
  induction ms as [|x ms IH]; intros m y_probs H; simpl in H.
  - inversion H; subst. split; [reflexivity|]. intros; reflexivity.
  - destruct (Np.mat_add m x) as [m'|e] eqn:Hadd.
    + destruct (IH _ _ H) as (Hlen & Hent).
      destruct (mat_add_nth _ _ _ Hadd) as (Hl1 & _ & Hsum).
      split; [congruence|]. intros i j. simpl.
      rewrite Hent. apply fold_Qplus_compat, Hsum.
    + rewrite fold_mat_add_Raise in H. discriminate.
Qed.

Lemma argmax_axis1_total (m : Np.matrix) :
  Forall (fun row => row <> []) m ->
  exists y_preds,
    Np.argmax_axis1 m = Ok y_preds /\
    Forall2 (fun row y => exists i, y = Z.of_nat i /\ first_max row i)
      m y_preds.
Proof.
  unfold Np.argmax_axis1.
  induction 1 as [|row m Hrow _ (ys & Hys & IH)]; simpl.
  - exists []. split; [reflexivity|constructor].
  - destruct (argmax_first_max row Hrow) as (i & Hi & Hmax).
    rewrite Hi, Hys. simpl. eexists. split; [reflexivity|].
    constructor; [exists i; split; [reflexivity|exact Hmax]|exact IH].
Qed.

(** C1 (as stated, refuted): one network, four crops; class 3 has the
    largest column sum of the summed probability matrix, and [predict]
    returns 0. *)
Lemma neural_path_not_summed_argmax :
  Models.spec_summed_argmax [crop_scores] = Ok 3 /\
  Models.predict no_cropping no_preprocessing [[[0%Q]]]
    (Models.Single constant_network)
    true 4 (1 # 2)%Q 500%Q true false true = Ok 0.
Proof. split; vm_compute; reflexivity. Qed.

(** C1 (amended): on the neural path the probability matrices of the models
    are summed element-wise; each crop (row of the sum) votes for its argmax,
    the lowest class index among the largest scores; the label returned is
    the most frequent vote, the one met first in crop order among the most
    frequent ones. *)
Theorem neural_path_votes_per_crop
  (cropping : Np.tensor3 -> list (option Z) -> Q -> Z -> Q ->
              result (Np.tensor3 * list (option Z)))
  (preprocessing : Np.tensor3 -> Q -> bool -> bool -> bool -> result Np.tensor3)
  (X : Np.tensor3) (models : Models.models_arg Models.model)
  (n_crops : Z) (crop_len fs : Q)
  (should_reref should_filter should_standardize : bool)
  (Xc Xp : Np.tensor3) (lbl : list (option Z))
  (m : Np.matrix) (ms : list Np.matrix) (y_probs : Np.matrix) :
  cropping X [None] fs n_crops crop_len = Ok (Xc, lbl) ->
  preprocessing Xc fs should_reref should_filter should_standardize = Ok Xp ->
  comprehension (Models.predict_scores (Np.newaxis_last Xp))
    (Models.as_list models) = Ok (m :: ms) ->
  Np.sum_axis0 (m :: ms) = Ok y_probs ->
  y_probs <> [] ->
  Forall (fun row => row <> []) y_probs ->
  (forall i j,
      (nth j (nth i y_probs []) 0 ==
       fold_left Qplus (map (fun x => nth j (nth i x []) 0%Q) ms)
         (nth j (nth i m []) 0))%Q) /\
  exists y_preds y_pred,
    Forall2 (fun row y => exists i, y = Z.of_nat i /\ first_max row i)
      y_probs y_preds /\
    first_mode y_preds y_pred /\
    Models.predict cropping preprocessing X models true n_crops crop_len fs
      should_reref should_filter should_standardize = Ok y_pred.
Proof.
  intros Hcrop Hpre Hmodels Hsum Hne Hrows.
  split; [apply (sum_axis0_entry ms m y_probs Hsum)|].
  destruct (argmax_axis1_total y_probs Hrows) as (y_preds & Hargmax & Hvotes).
  destruct (most_common_label_total y_preds) as (y_pred & Hlabel).
  { intros ->. inversion Hvotes; subst. congruence. }
  exists y_preds, y_pred. split; [exact Hvotes|].
  split; [apply most_common_label_first_mode, Hlabel|].
  unfold Models.predict. rewrite Hcrop. simpl.
  rewrite Hpre. simpl. rewrite Hmodels. simpl.
  change (Np.sum_axis0 (m :: ms)) with
    (fold_left (fun acc x => a <- acc ;; Np.mat_add a x) ms (Ok m)) in Hsum.
  rewrite Hsum. simpl. rewrite Hargmax. simpl. exact Hlabel.
Qed.

Lemma neural_path_votes_per_crop_witness :
  exists y_preds y_pred,
    Forall2 (fun row y => exists i, y = Z.of_nat i /\ first_max row i)
      crop_scores y_preds /\
    first_mode y_preds y_pred /\
    Models.predict no_cropping no_preprocessing [[[0%Q]]]
      (Models.Single constant_network)
      true 4 (1 # 2)%Q 500%Q true false true = Ok y_pred.
Proof.
  refine (proj2 (neural_path_votes_per_crop no_cropping no_preprocessing
            [[[0%Q]]] (Models.Single constant_network) 4 (1 # 2)%Q 500%Q
            true false true
            [[[0%Q]]] [[[0%Q]]] [None] crop_scores [] crop_scores
            eq_refl eq_refl eq_refl eq_refl _ _)).
  - discriminate.
  - repeat constructor; discriminate.
Defined.

(** C3: on the classical path the label is the most frequent value of the
    concatenation, model after model, of the hard labels of the crops; among
    the most frequent values it is the one met first in the concatenation.
    The labels 0, 1, 0, 1 give 0, and three models predicting 2, 2, 1 and
    2, 1, 1 and 1, 1, 1 give 1. *)
Theorem classical_path_first_mode
  (cropping : Np.tensor3 -> list (option Z) -> Q -> Z -> Q ->
              result (Np.tensor3 * list (option Z)))
  (preprocessing : Np.tensor3 -> Q -> bool -> bool -> bool -> result Np.tensor3)
  (X : Np.tensor3) (models : Models.models_arg Models.model)
  (n_crops : Z) (crop_len fs : Q)
  (should_reref should_filter should_standardize : bool)
  (Xc : Np.tensor3) (lbl : list (option Z)) (y : list (list Z)) :
  cropping X [None] fs n_crops crop_len = Ok (Xc, lbl) ->
  comprehension (Models.predict_labels Xc) (Models.as_list models) = Ok y ->
  concat y <> [] ->
  (exists y_pred,
      first_mode (concat y) y_pred /\
      Models.predict cropping preprocessing X models false n_crops crop_len fs
        should_reref should_filter should_standardize = Ok y_pred) /\
  Models.predict cropping preprocessing X
    (Models.Single (constant_pipeline [0; 1; 0; 1]))
    false n_crops crop_len fs should_reref should_filter should_standardize
  = Ok 0 /\
  Models.predict cropping preprocessing X
    (Models.Several [constant_pipeline [2; 2; 1]; constant_pipeline [2; 1; 1];
                     constant_pipeline [1; 1; 1]])
    false n_crops crop_len fs should_reref should_filter should_standardize
  = Ok 1.
Proof.
  intros Hcrop Hmodels Hne.
  split; [|split].
  - destruct (most_common_label_total (concat y) Hne) as (y_pred & Hlabel).
    exists y_pred. split; [apply most_common_label_first_mode, Hlabel|].
    unfold Models.predict. rewrite Hcrop. simpl. rewrite Hmodels. simpl.
    unfold Np.concatenate. destruct y as [|y0 y]; [simpl in Hne; congruence|].
    simpl. exact Hlabel.
  - unfold Models.predict. rewrite Hcrop. reflexivity.
  - unfold Models.predict. rewrite Hcrop. reflexivity.
Qed.

Lemma classical_path_first_mode_witness :
  exists y_pred,
    first_mode (concat [[2; 2; 1]; [2; 1; 1]; [1; 1; 1]]) y_pred /\
    Models.predict no_cropping no_preprocessing [[[0%Q]]]
      (Models.Several [constant_pipeline [2; 2; 1]; constant_pipeline [2; 1; 1];
                       constant_pipeline [1; 1; 1]])
      false 3 (1 # 2)%Q 500%Q true false true = Ok y_pred.
Proof.
  refine (proj1 (classical_path_first_mode no_cropping no_preprocessing
            [[[0%Q]]]
            (Models.Several [constant_pipeline [2; 2; 1];
                             constant_pipeline [2; 1; 1];
                             constant_pipeline [1; 1; 1]])
            3 (1 # 2)%Q 500%Q true false true
            [[[0%Q]]] [None] [[2; 2; 1]; [2; 1; 1]; [1; 1; 1]]
            eq_refl eq_refl _)).
  discriminate.
Defined.

(** C7: on the classical path the preprocessing chain is not applied: the
    label is the same for any two settings of the three flags, and for any
    two preprocessing functions. *)
Theorem classical_path_ignores_preprocessing
  (cropping : Np.tensor3 -> list (option Z) -> Q -> Z -> Q ->
              result (Np.tensor3 * list (option Z)))
  (preprocessing preprocessing' :
     Np.tensor3 -> Q -> bool -> bool -> bool -> result Np.tensor3)
  (X : Np.tensor3) (models : Models.models_arg Models.model)
  (n_crops : Z) (crop_len fs : Q)
  (reref filt standardize reref' filt' standardize' : bool) :
  Models.predict cropping preprocessing X models false n_crops crop_len fs
    reref filt standardize =
  Models.predict cropping preprocessing' X models false n_crops crop_len fs
    reref' filt' standardize'.
Proof. reflexivity. Qed.

(** C9: a single model and the one-element list holding it give the same
    result, on the neural path and on the classical path. *)
Theorem single_model_is_singleton_list
  (cropping : Np.tensor3 -> list (option Z) -> Q -> Z -> Q ->
              result (Np.tensor3 * list (option Z)))
  (preprocessing : Np.tensor3 -> Q -> bool -> bool -> bool -> result Np.tensor3)
  (X : Np.tensor3) (m : Models.model) (is_convnet : bool)
  (n_crops : Z) (crop_len fs : Q)
  (should_reref should_filter should_standardize : bool) :
  Models.predict cropping preprocessing X (Models.Single m) is_convnet
    n_crops crop_len fs should_reref should_filter should_standardize =
  Models.predict cropping preprocessing X (Models.Several [m]) is_convnet
    n_crops crop_len fs should_reref should_filter should_standardize.
Proof. reflexivity. Qed.

(** ** The aggregator and the hidden state of its collaborators *)

Section Blind.
Context {W : Type}.

Lemma state_blind_lift {A : Type} (r : result A) :
  Hidden.state_blind (Hidden.lift (W := W) r).
Proof. intros w1 w2. reflexivity. Qed.

Lemma state_blind_bind {A B : Type} (c : Hidden.io W A)
  (k : A -> Hidden.io W B) :
  Hidden.state_blind c -> (forall a, Hidden.state_blind (k a)) ->
  Hidden.state_blind (Hidden.bind_io c k).
Proof.
  intros Hc Hk w1 w2. unfold Hidden.bind_io.
  specialize (Hc w1 w2).
  destruct (c w1) as [[a1|e1] w1'], (c w2) as [[a2|e2] w2'];
    simpl in Hc; try discriminate.
  - inversion Hc; subst. apply Hk.
  - simpl. inversion Hc; reflexivity.
Qed.

Lemma state_blind_comprehension {A B : Type} (f : A -> Hidden.io W B)
  (xs : list A) :
  Forall (fun x => Hidden.state_blind (f x)) xs ->
  Hidden.state_blind (Hidden.comprehension_io f xs).
Proof.
  induction 1 as [|x xs Hx _ IH]; simpl.
  - apply (state_blind_lift (Ok [])).
  - apply state_blind_bind; [exact Hx|]. intros y.
    apply state_blind_bind; [exact IH|]. intros ys.
    apply (state_blind_lift (Ok (y :: ys))).
Qed.

Lemma state_blind_predict
  (cropping : Np.tensor3 -> list (option Z) -> Q -> Z -> Q ->
              Hidden.io W (Np.tensor3 * list (option Z)))
  (preprocessing : Np.tensor3 -> Q -> bool -> bool -> bool ->
                   Hidden.io W Np.tensor3)
  (X : Np.tensor3) (models : Models.models_arg (Hidden.model W))
  (is_convnet : bool) (n_crops : Z) (crop_len fs : Q)
  (should_reref should_filter should_standardize : bool) :
  (forall X y fs n c, Hidden.state_blind (cropping X y fs n c)) ->
  (forall X fs r f s, Hidden.state_blind (preprocessing X fs r f s)) ->
  Forall Hidden.model_state_blind (Models.as_list models) ->
  Hidden.state_blind
    (Hidden.predict W cropping preprocessing X models is_convnet n_crops
       crop_len fs should_reref should_filter should_standardize).
Proof.
  intros Hcrop Hpre Hmodels. unfold Hidden.predict.
  apply state_blind_bind; [apply Hcrop|]. intros Xy.
  apply state_blind_bind.
  - destruct is_convnet.
    + apply state_blind_bind; [apply Hpre|]. intros Xp.
      apply state_blind_bind.
      * apply state_blind_comprehension.
        eapply Forall_impl; [|exact Hmodels].
        intros [p|p] Hm; simpl; [apply Hm|apply state_blind_lift].
      * intros y_prob. apply state_blind_bind; [apply state_blind_lift|].
        intros y_probs. apply state_blind_bind; [apply state_blind_lift|].
        intros y_preds. apply (state_blind_lift (Ok (Some y_probs, y_preds))).
    + apply state_blind_bind.
      * apply state_blind_comprehension.
        eapply Forall_impl; [|exact Hmodels].
        intros [p|p] Hm; simpl; [apply state_blind_lift|apply Hm].
      * intros y. apply state_blind_bind; [apply state_blind_lift|].
        intros y_preds. apply (state_blind_lift (Ok (None, y_preds))).
  - intros r. apply state_blind_bind; [apply state_blind_lift|].
    intros y_pred. apply (state_blind_lift (Ok (fst r, y_pred))).
Qed.

Lemma comprehension_io_lift {A B : Type} (f : A -> result B) (xs : list A)
  (w : W) :
  Hidden.comprehension_io (fun x => Hidden.lift (f x)) xs w =
  (comprehension f xs, w).
Proof.
  induction xs as [|x xs IH]; simpl; [reflexivity|].
  unfold Hidden.bind_io, Hidden.lift at 1.
  destruct (f x) as [y|e]; simpl; [|reflexivity].
  rewrite IH. destruct (comprehension f xs); reflexivity.
Qed.

Lemma comprehension_io_map_ext {A A' B : Type} (h : A' -> A)
  (f : A -> Hidden.io W B) (g : A' -> Hidden.io W B) (xs : list A') :
  (forall x w, f (h x) w = g x w) ->
  forall w, Hidden.comprehension_io f (map h xs) w =
            Hidden.comprehension_io g xs w.
Proof.
  intros Hfg. induction xs as [|x xs IH]; intros w; simpl; [reflexivity|].
  unfold Hidden.bind_io. rewrite Hfg.
  destruct (g x w) as [[y|e] w']; [|reflexivity].
  rewrite IH. reflexivity.
Qed.
End Blind.

(** With collaborators that have no hidden state, the aggregator with
    explicit state is [Models.predict]. *)
Lemma hidden_predict_of_pure {W : Type}
  (cropping : Np.tensor3 -> list (option Z) -> Q -> Z -> Q ->
              result (Np.tensor3 * list (option Z)))
  (preprocessing : Np.tensor3 -> Q -> bool -> bool -> bool -> result Np.tensor3)
  (X : Np.tensor3) (ms : list Models.model)
  (is_convnet : bool) (n_crops : Z) (crop_len fs : Q)
  (should_reref should_filter should_standardize : bool) (w : W) :
  label_of (fst (Hidden.predict W
    (fun X y fs n c => Hidden.lift (cropping X y fs n c))
    (fun X fs r f s => Hidden.lift (preprocessing X fs r f s))
    X (Models.Several (map Hidden.of_pure ms)) is_convnet n_crops crop_len fs
    should_reref should_filter should_standardize w)) =
  Models.predict cropping preprocessing X (Models.Several ms) is_convnet
    n_crops crop_len fs should_reref should_filter should_standardize.
Proof.
  unfold Hidden.predict, Models.predict. simpl.
  unfold Hidden.bind_io at 1. unfold Hidden.lift at 1.
  destruct (cropping X [None] fs n_crops crop_len) as [[Xc lbl]|e];
    simpl; [|reflexivity].
  assert (Hs : forall Y,
     Hidden.comprehension_io (Hidden.predict_scores W Y)
       (map Hidden.of_pure ms) w =
     (comprehension (Models.predict_scores Y) ms, w)).
  { intros Y. rewrite <- comprehension_io_lift.
    apply comprehension_io_map_ext. intros [p|p] w'; reflexivity. }
  assert (Hl : forall Y,
     Hidden.comprehension_io (Hidden.predict_labels W Y)
       (map Hidden.of_pure ms) w =
     (comprehension (Models.predict_labels Y) ms, w)).
  { intros Y. rewrite <- comprehension_io_lift.
    apply comprehension_io_map_ext. intros [p|p] w'; reflexivity. }
  destruct is_convnet.
  - unfold Hidden.bind_io, Hidden.lift.
    destruct (preprocessing Xc fs should_reref should_filter
                should_standardize) as [Xp|e]; simpl; [|reflexivity].
    rewrite Hs.
    destruct (comprehension (Models.predict_scores (Np.newaxis_last Xp)) ms)
      as [y_prob|e]; simpl; [|reflexivity].
    destruct (Np.sum_axis0 y_prob) as [y_probs|e]; simpl; [|reflexivity].
    destruct (Np.argmax_axis1 y_probs) as [y_preds|e]; simpl; [|reflexivity].
    destruct (most_common_label y_preds); reflexivity.
  - unfold Hidden.bind_io, Hidden.lift. rewrite Hl.
    destruct (comprehension (Models.predict_labels Xc) ms) as [y|e];
      simpl; [|reflexivity].
    destruct (Np.concatenate y) as [y_preds|e]; simpl; [|reflexivity].
    destruct (most_common_label y_preds); reflexivity.
Qed.

(** What a second run returns follows the collaborators.  With the
    counting collaborators, which change the hidden state and never read it,
    two runs agree; with a cropping that reads the hidden state, the second
    run, started in the state the first one left, returns another label. *)
Example runs_follow_the_collaborators :
  fst (Hidden.predict nat counting_cropping counting_preprocessing [[[0%Q]]]
         (Models.Several [counting_network; counting_network]) true 4
         (1 # 2)%Q 500%Q true false true 0%nat) =
  fst (Hidden.predict nat counting_cropping counting_preprocessing [[[0%Q]]]
         (Models.Several [counting_network; counting_network]) true 4
         (1 # 2)%Q 500%Q true false true 4%nat) /\
  fst (Hidden.predict nat drifting_cropping counting_preprocessing [[[0%Q]]]
         (Models.Single reading_network) true 1 (1 # 2)%Q 500%Q
         true false true 0%nat) = Ok (Some [[0; 1 # 2]%Q], 1) /\
  fst (Hidden.predict nat drifting_cropping counting_preprocessing [[[0%Q]]]
         (Models.Single reading_network) true 1 (1 # 2)%Q 500%Q
         true false true 3%nat) = Ok (Some [[3; 1 # 2]%Q], 0) /\
  snd (Hidden.predict nat drifting_cropping counting_preprocessing [[[0%Q]]]
         (Models.Single reading_network) true 1 (1 # 2)%Q 500%Q
         true false true 0%nat) = 3%nat.
Proof. repeat split; vm_compute; reflexivity. Qed.

Example counting_run_changes_state :
  Hidden.predict nat counting_cropping counting_preprocessing [[[0%Q]]]
    (Models.Several [counting_network; counting_network]) true 4
    (1 # 2)%Q 500%Q true false true 0%nat
  = (Ok (Some (map (map (fun x => (x + x)%Q)) crop_scores), 0), 4%nat).
Proof. vm_compute. reflexivity. Qed.

(** ** The prediction log *)

Section Log.
Variable cropping :
  Np.tensor3 -> list (option Z) -> Q -> Z -> Q ->
  result (Np.tensor3 * list (option Z)).
Variable preprocessing :
  Np.tensor3 -> Q -> bool -> bool -> bool -> result Np.tensor3.
Variable metrics : list Z -> list Z -> result (Q * Q).

(** The loop appends one row per event, in order, and changes nothing
    else; when it stops on an exception, the rows are those of the events
    before the failing one. *)
Lemma validate_loop_log (evs : list (Q * Z)) :
  forall w o w', Widget.validate_loop cropping preprocessing w evs = (o, w') ->
    exists done rs,
      comprehension (Widget.predict_event cropping preprocessing w) done = Ok rs /\
      w' = Widget.set_chrono w (extend (Widget.chrono_source w) done rs) /\
      match o with
      | None => done = evs
      | Some e => exists ev rest, evs = done ++ ev :: rest /\
                                  Widget.predict_event cropping preprocessing w ev = Raise e
      end.
Proof.
  induction evs as [|ev evs IH]; intros w o w' H; simpl in H.
  - inversion H; subst. exists [], []. split; [reflexivity|].
    split; [|reflexivity].
    destruct w' as [? ? ? ? ? ? ? ? [? ? ?] ? ? ? ?].
    unfold Widget.set_chrono, extend. simpl. now rewrite !app_nil_r.
  - unfold Widget.validate_event in H.
    destruct (Widget.predict_event cropping preprocessing w ev) as [r|e] eqn:Hev; simpl in H.
    + apply IH in H as (done & rs & Hdone & Hw' & Ho).
      exists (ev :: done), (r :: rs). split; [|split].
      * simpl. rewrite Hev. simpl.
        change (comprehension (Widget.predict_event cropping preprocessing w) done) with
          (comprehension
             (Widget.predict_event cropping preprocessing
                (Widget.set_chrono w
                   (Widget.stream (Widget.chrono_source w) (fst ev)
                      (fst r) (snd r)))) done).
        rewrite Hdone. reflexivity.
      * rewrite Hw'. unfold Widget.set_chrono, extend, Widget.stream. simpl.
        now rewrite <- !app_assoc.
      * destruct o as [e|]; [|now subst].
        destruct Ho as (ev' & rest & -> & He).
        exists ev', rest. split; [reflexivity|exact He].
    + inversion H; subst. exists [], []. split; [reflexivity|].
      split.
      * destruct w' as [? ? ? ? ? ? ? ? [? ? ?] ? ? ? ?].
        unfold Widget.set_chrono, extend. simpl. now rewrite !app_nil_r.
      * exists ev, evs. split; [reflexivity|exact Hev].
Qed.
End Log.

(** C10: a validation pass that runs to its end leaves in the log exactly
    one row (timestamp, ground truth, prediction) per decoded event of the
    run, in the order of the events, whatever the log held before the
    pass. *)
Theorem validation_pass_log
  (cropping : Np.tensor3 -> list (option Z) -> Q -> Z -> Q ->
              result (Np.tensor3 * list (option Z)))
  (preprocessing : Np.tensor3 -> Q -> bool -> bool -> bool -> result Np.tensor3)
  (metrics : list Z -> list Z -> result (Q * Q))
  (w w' : Widget.TestWidget) :
  Widget.validation_pass cropping preprocessing metrics w = (None, w') ->
  exists d rs,
    Widget.data w = Some d /\
    comprehension (Widget.predict_event cropping preprocessing w)
      (Widget.events d) = Ok rs /\
    length rs = length (Widget.events d) /\
    Widget.chrono_source w' =
    Widget.mkColumns (map fst (Widget.events d)) (map fst rs) (map snd rs).
Proof.
  unfold Widget.validation_pass, Widget.on_validate_start.
  destruct (String.eqb (Widget.select_run_value w) EmptyString);
    [discriminate|].
  destruct (String.eqb (Widget.select_model_value w) EmptyString);
    [discriminate|].
  unfold Widget.on_validate.
  change (Widget.data (Widget.update_widget w)) with (Widget.data w).
  destruct (Widget.data w) as [d|]; simpl; [|discriminate].
  destruct (Widget.validate_loop cropping preprocessing
              (Widget.update_widget w) (Widget.events d)) as [o w1] eqn:Hloop.
  intros H.
  apply validate_loop_log in Hloop as (done & rs & Hdone & Hw1 & Ho).
  destruct o as [e|]; [discriminate|]. subst done.
  assert (w' = w1).
  { destruct (metrics _ _); [inversion H; reflexivity|discriminate]. }
  subst w'. exists d, rs. split; [reflexivity|].
  split; [exact Hdone|].
  split; [eapply comprehension_length; exact Hdone|].
  rewrite Hw1. reflexivity.
Qed.

Lemma validation_pass_log_witness :
  exists d rs,
    Widget.data example_widget = Some d /\
    comprehension (Widget.predict_event no_cropping no_preprocessing
                     example_widget) (Widget.events d) = Ok rs /\
    length rs = length (Widget.events d) /\
    Widget.chrono_source
      (snd (Widget.validation_pass no_cropping no_preprocessing
              example_metrics example_widget)) =
    Widget.mkColumns (map fst (Widget.events d)) (map fst rs) (map snd rs).
Proof.
  apply (validation_pass_log no_cropping no_preprocessing example_metrics).
  vm_compute. reflexivity.
Defined.

Example validation_pass_example :
  Widget.chrono_source
    (snd (Widget.validation_pass no_cropping no_preprocessing example_metrics
            example_widget)) =
  Widget.mkColumns [1%Q; (3 # 2)%Q] [0; 2] [1; 1].
Proof. vm_compute. reflexivity. Qed.

(** Events decoded from markers in sample order have non-decreasing
    timestamps. *)
Lemma to_seconds_sorted (f : Q) (evs : list (Z * Z * Z))
  (markers : list (Z * string)) :
  (0 < f)%Q ->
  StronglySorted (fun a b => fst (fst a) <= fst (fst b)) evs ->
  StronglySorted Qle
    (map fst (Widget.to_seconds f
                (map decoded (filter (accepted markers) evs)))).
Proof.
  intros Hf. induction 1 as [|ev evs Hs IH Hall]; simpl; [constructor|].
  destruct (accepted markers ev); simpl; [|exact IH].
  constructor; [exact IH|].
  rewrite Forall_forall in *. intros q Hq.
  apply in_map_iff in Hq as ([q' l] & <- & Hq).
  unfold Widget.to_seconds in Hq.
  apply in_map_iff in Hq as ([n l'] & Heq & Hq). inversion Heq; subst.
  apply in_map_iff in Hq as (ev' & Hev' & Hq). apply filter_In in Hq as [Hq _].
  unfold decoded in Hev'. inversion Hev'; subst. simpl.
  apply Qmult_le_compat_r.
  - rewrite <- Zle_Qle. apply Hall, Hq.
  - apply Qlt_le_weak, Qinv_lt_0_compat, Hf.
Qed.

(** * Further properties of the code *)

(** ** The event decoder on every marker code *)

Lemma digits_two_or_more (n : Z) :
  10 <= n -> (2 <= String.length (digits n))%nat.
Proof.
  intros Hn. unfold digits.
  pose proof (log2_fuel n 3) as Hf. change (2 ^ 3) with 8 in Hf.
  destruct (Z.to_nat (Z.log2 n)) as [|f]; [simpl in Hf; lia|]. simpl.
  destruct (Z.ltb_spec n 10); [lia|].
  match goal with |- (_ <= String.length (digits_fuel ?f ?n ?acc))%nat =>
    pose proof (digits_fuel_length f n acc) as Hl end.
  simpl in Hl. lia.
Qed.

Lemma str_negative (m : Z) :
  m < 0 ->
  (String.length (str m) = 2%nat <-> -9 <= m) /\
  int_first_char (str m) = Raise ValueError.
Proof.
  intros Hm. unfold str. destruct (Z.ltb_spec m 0); [|lia].
  split; [|reflexivity]. simpl. split.
  - intros Hlen. destruct (Z.lt_ge_cases (- m) 10) as [|Hge]; [lia|].
    pose proof (digits_two_or_more (- m) Hge). lia.
  - intros Hge. unfold digits. rewrite digits_one by lia. reflexivity.
Qed.

Lemma decode_step_signed (markers : list (Z * string)) (acc : list (Z * Z))
  (ev : Z * Z * Z) :
  Widget.decode_step markers (Ok acc) ev =
  if signed_digit ev then Raise ValueError
  else Ok (acc ++ if accepted markers ev then [decoded ev] else []).
Proof.
  destruct (Z.lt_ge_cases (snd ev) 0) as [Hneg|Hpos].
  - destruct ev as [[t p] m]. simpl in Hneg.
    unfold signed_digit, accepted, Widget.decode_step. simpl.
    destruct (str_negative m Hneg) as [Hlen Hint].
    destruct (Z.leb_spec 10 m); [lia|]. simpl.
    destruct (Z.leb_spec m (-1)); [|lia]. rewrite andb_true_r.
    destruct (Z.leb_spec (-9) m) as [H9|H9].
    + rewrite (proj2 (Nat.eqb_eq _ _) (proj2 Hlen H9)), Hint. reflexivity.
    + destruct (Nat.eqb_spec (String.length (str m)) 2) as [H2|_].
      * apply Hlen in H2. lia.
      * now rewrite app_nil_r.
  - rewrite decode_step_nonneg by exact Hpos. unfold signed_digit.
    destruct (Z.leb_spec (snd ev) (-1)); [lia|].
    now rewrite andb_false_r.
Qed.

Lemma decode_fold_Raise (markers : list (Z * string)) (evs : list (Z * Z * Z))
  (e : exn) :
  fold_left (Widget.decode_step markers) evs (Raise e) = Raise e.
Proof. induction evs as [|ev evs IH]; simpl; [reflexivity|exact IH]. Qed.

Lemma decode_fold_all (markers : list (Z * string)) (evs : list (Z * Z * Z)) :
  forall acc,
    fold_left (Widget.decode_step markers) evs (Ok acc) =
    if existsb signed_digit evs then Raise ValueError
    else Ok (acc ++ map decoded (filter (accepted markers) evs)).
Proof.
  induction evs as [|ev evs IH]; intros acc; cbn [fold_left filter existsb].
  - simpl. now rewrite app_nil_r.
  - rewrite decode_step_signed. destruct (signed_digit ev); simpl.
    + apply decode_fold_Raise.
    + rewrite IH. destruct (existsb signed_digit evs); [reflexivity|].
      rewrite <- app_assoc. destruct (accepted markers ev); reflexivity.
Qed.

(** X1: on arbitrary integer marker codes the decoder raises exactly when
    some code lies between -9 and -1 (a sign and one digit: two characters,
    the first of which is no digit), and the exception is [ValueError];
    otherwise it returns, in order, the events whose code lies between 10
    and 99 with a first digit in the table. *)
Theorem decode_events_raises_on_signed_digit
  (markers : list (Z * string)) (evs : list (Z * Z * Z)) :
  (Widget.decode_events markers evs = Raise ValueError <->
   Exists (fun ev => -9 <= snd ev <= -1) evs) /\
  (forall e, Widget.decode_events markers evs = Raise e -> e = ValueError) /\
  (Forall (fun ev => ~ -9 <= snd ev <= -1) evs ->
   Widget.decode_events markers evs =
   Ok (map decoded (filter (accepted markers) evs))).
Proof.
  unfold Widget.decode_events. rewrite decode_fold_all. simpl.
  assert (Hex : existsb signed_digit evs = true <->
                Exists (fun ev => -9 <= snd ev <= -1) evs).
  { rewrite existsb_exists, Exists_exists. unfold signed_digit.
    split; intros (ev & Hin & H); exists ev; (split; [exact Hin|]).
    - apply andb_true_iff in H as [H1 H2].
      apply Z.leb_le in H1, H2. lia.
    - apply andb_true_iff. split; apply Z.leb_le; lia. }
  split; [|split].
  - rewrite <- Hex. destruct (existsb signed_digit evs);
      split; intros H; try reflexivity; discriminate.
  - intros e. destruct (existsb signed_digit evs); intros H;
      inversion H; reflexivity.
  - intros Hall. destruct (existsb signed_digit evs) eqn:Hb; [|reflexivity].
    exfalso. destruct Hex as [Hex _]. specialize (Hex eq_refl).
    apply Exists_exists in Hex as (ev & Hin & H).
    rewrite Forall_forall in Hall. exact (Hall ev Hin H).
Qed.

Lemma decode_events_raises_on_signed_digit_witness :
  Forall (fun ev => ~ -9 <= snd ev <= -1)
    (Widget.annotation_events example_raw) /\
  Widget.decode_events example_markers (Widget.annotation_events example_raw)
  = Ok [(100, 1); (300, 2); (500, 3)] /\
  Exists (fun ev => -9 <= snd ev <= -1)
    (Widget.annotation_events signed_raw) /\
  Widget.decode_events example_markers (Widget.annotation_events signed_raw)
  = Raise ValueError.
Proof.
  assert (H1 : Forall (fun ev => ~ -9 <= snd ev <= -1)
                 (Widget.annotation_events example_raw))
    by (repeat constructor; simpl; lia).
  assert (H2 : Exists (fun ev => -9 <= snd ev <= -1)
                 (Widget.annotation_events signed_raw))
    by (apply Exists_cons_tl, Exists_cons_hd; simpl; lia).
  split; [exact H1|]. split.
  - rewrite (proj2 (proj2 (decode_events_raises_on_signed_digit
                             example_markers _)) H1). reflexivity.
  - split; [exact H2|].
    exact (proj2 (proj1 (decode_events_raises_on_signed_digit
                           example_markers _)) H2).
Defined.

Lemma accepted_label (markers : list (Z * string)) (ev : Z * Z * Z) :
  accepted markers ev = true ->
  1 <= snd (decoded ev) <= 9 /\
  exists name,
    dict_getitem Z.eqb markers (snd (decoded ev)) = Ok name.
Proof.
  unfold accepted, decoded. simpl. intros H.
  apply andb_true_iff in H as [H Hmem]. apply andb_true_iff in H as [H1 H2].
  apply Z.leb_le in H1, H2. split.
  - split; [apply Z.div_le_lower_bound; lia|].
    assert (snd ev / 10 < 10) by (apply Z.div_lt_upper_bound; lia). lia.
  - unfold dict_mem in Hmem. unfold dict_getitem.
    destruct (dict_get Z.eqb markers (snd ev / 10)) as [name|];
      [exists name; reflexivity|discriminate].
Qed.

(** X2: every event that [on_run_change] stores carries a label between 1
    and 9 that is a key of the label-decoding table, so the ground-truth
    lookup [markers_decoding[groundtruth]] of the validation loop cannot
    raise [KeyError] on it; no more events are stored than markers were
    read. *)
Theorem on_run_change_labels_are_keys
  (w w' : Widget.TestWidget) (new : string) (raw : Widget.Raw) :
  new <> EmptyString ->
  Widget.on_run_change w new raw = (None, w') ->
  exists d,
    Widget.data w' = Some d /\
    (length (Widget.events d) <= length (Widget.annotation_events raw))%nat /\
    Forall (fun e =>
              1 <= snd e <= 9 /\
              exists name,
                dict_getitem Z.eqb (Widget.markers_decoding w') (snd e)
                = Ok name)
      (Widget.events d).
Proof.
  intros Hnew. unfold Widget.on_run_change.
  destruct (String.eqb_spec new EmptyString) as [|_]; [contradiction|].
  simpl. unfold Widget.decode_events. rewrite decode_fold_all.
  destruct (existsb signed_digit (Widget.annotation_events raw));
    [discriminate|].
  intros H. inversion H; subst; clear H. simpl.
  eexists. split; [reflexivity|]. simpl. split.
  - unfold Widget.to_seconds. rewrite !length_map. apply filter_length_le.
  - unfold Widget.to_seconds. rewrite Forall_map, Forall_map.
    apply Forall_forall. intros ev Hin. apply filter_In in Hin as [_ Hacc].
    simpl. exact (accepted_label _ _ Hacc).
Qed.

Lemma on_run_change_labels_are_keys_witness :
  "run.vhdr"%string <> EmptyString /\
  exists d,
    Widget.data (snd (Widget.on_run_change fresh_widget "run.vhdr" example_raw))
    = Some d /\
    (length (Widget.events d) <= length (Widget.annotation_events example_raw))%nat /\
    Forall (fun e =>
              1 <= snd e <= 9 /\
              exists name,
                dict_getitem Z.eqb
                  (Widget.markers_decoding
                     (snd (Widget.on_run_change fresh_widget "run.vhdr"
                             example_raw))) (snd e) = Ok name)
      (Widget.events d).
Proof.
  assert (H1 : "run.vhdr"%string <> EmptyString) by discriminate.
  split; [exact H1|].
  apply (on_run_change_labels_are_keys fresh_widget _ "run.vhdr" example_raw H1).
  reflexivity.
Defined.



(** ** The inverted prediction table *)

Lemma string_dict_get_set (c : list (string * Z)) (k : string) (v : Z)
  (k' : string) :
  dict_get String.eqb (dict_set String.eqb c k v) k' =
  if String.eqb k k' then Some v else dict_get String.eqb c k'.
Proof.
  induction c as [|[k0 v0] c IH]; simpl.
  - reflexivity.
  - destruct (String.eqb_spec k0 k) as [->|Hne]; simpl.
    + destruct (String.eqb_spec k k'); reflexivity.
    + rewrite IH. destruct (String.eqb_spec k0 k') as [->|]; [|reflexivity].
      destruct (String.eqb_spec k k'); [congruence|reflexivity].
Qed.

Lemma invert_fold (d : list (Z * string)) (v : string) :
  forall acc,
    dict_get String.eqb
      (fold_left (fun acc kv => dict_set String.eqb acc (snd kv) (fst kv))
         d acc) v =
    match last_key d v with
    | Some k => Some k
    | None => dict_get String.eqb acc v
    end.
Proof.
  induction d as [|[k0 v0] d IH]; intros acc; simpl; [reflexivity|].
  rewrite IH. destruct (last_key d v); [reflexivity|].
  rewrite string_dict_get_set. destruct (String.eqb v0 v); reflexivity.
Qed.

Lemma last_key_In (d : list (Z * string)) (v : string) (k : Z) :
  last_key d v = Some k -> In (k, v) d.
Proof.
  induction d as [|[k0 v0] d IH]; simpl; [discriminate|].
  destruct (last_key d v) as [k'|].
  - intros H. inversion H; subst. right. apply IH. reflexivity.
  - destruct (String.eqb_spec v0 v) as [->|]; [|discriminate].
    intros H. inversion H; subst. left. reflexivity.
Qed.

Lemma last_key_None (d : list (Z * string)) (v : string) :
  last_key d v = None <-> ~ In v (map snd d).
Proof.
  induction d as [|[k0 v0] d IH]; simpl; [tauto|].
  destruct (last_key d v) as [k'|].
  - split; [discriminate|]. intros H. exfalso.
    assert (Hn : ~ In v (map snd d)) by tauto.
    apply IH in Hn. discriminate.
  - destruct (String.eqb_spec v0 v) as [->|Hne].
    + split; [discriminate|tauto].
    + split; [|reflexivity]. intros _ [?|Hin]; [congruence|].
      revert Hin. apply IH. reflexivity.
Qed.

Lemma last_key_NoDup (d : list (Z * string)) (v : string) (k : Z) :
  NoDup (map snd d) -> In (k, v) d -> last_key d v = Some k.
Proof.
  induction d as [|[k0 v0] d IH]; simpl; intros Hnd Hin; [contradiction|].
  inversion Hnd as [|? ? Hnot Hnd']; subst.
  destruct Hin as [Heq|Hin].
  - inversion Heq; subst.
    rewrite (proj2 (last_key_None d v) Hnot), String.eqb_refl. reflexivity.
  - rewrite (IH Hnd' Hin). reflexivity.
Qed.

Lemma invert_last_key (d : list (Z * string)) (v : string) :
  dict_get String.eqb (Widget.invert d) v = last_key d v.
Proof.
  unfold Widget.invert. rewrite invert_fold.
  destruct (last_key d v); reflexivity.
Qed.

(** X4: the table built by [{v: k for k, v in pred_decoding.items()}] maps
    a name to the key of the last entry that carries it, and to nothing when
    no entry does; when no two entries carry the same name it is the exact
    inverse: it maps [v] to [k] if and only if [(k, v)] is an entry. *)
Theorem invert_lookup (d : list (Z * string)) (v : string) :
  dict_get String.eqb (Widget.invert d) v = last_key d v /\
  (dict_get String.eqb (Widget.invert d) v = None <-> ~ In v (map snd d)) /\
  (NoDup (map snd d) ->
   forall k, dict_get String.eqb (Widget.invert d) v = Some k <-> In (k, v) d).
Proof.
  pose proof (invert_last_key d v) as H.
  split; [exact H|]. rewrite H. split; [apply last_key_None|].
  intros Hnd k. split; [apply last_key_In|apply last_key_NoDup, Hnd].
Qed.

Lemma invert_lookup_witness :
  NoDup (map snd example_pred) /\
  (dict_get String.eqb (Widget.invert example_pred) "Left"%string = Some 1 <->
   In (1, "Left"%string) example_pred).
Proof.
  assert (Hnd : NoDup (map snd example_pred)).
  { repeat constructor; simpl; intuition discriminate. }
  split; [exact Hnd|].
  exact (proj2 (proj2 (invert_lookup example_pred "Left"%string)) Hnd 1).
Defined.

(** X5: in a widget whose inverse table is the one [__init__] builds, the
    two lookups [decoding2pred[markers_decoding[groundtruth]]] succeed for
    every ground-truth label that is a key of the marker table and whose
    name occurs in the prediction table, and the class they return carries
    that name in the prediction table. *)
Theorem ground_truth_lookup
  (w : Widget.TestWidget) (groundtruth : Z) (name : string) :
  Widget.decoding2pred w = Widget.invert (Widget.pred_decoding w) ->
  dict_get Z.eqb (Widget.markers_decoding w) groundtruth = Some name ->
  In name (map snd (Widget.pred_decoding w)) ->
  exists y_true,
    (n <- dict_getitem Z.eqb (Widget.markers_decoding w) groundtruth ;;
     dict_getitem String.eqb (Widget.decoding2pred w) n) = Ok y_true /\
    In (y_true, name) (Widget.pred_decoding w).
Proof.
  intros Hinv Hname Hin. unfold dict_getitem at 1. rewrite Hname. simpl.
  unfold dict_getitem. rewrite Hinv.
  rewrite invert_last_key.
  destruct (last_key (Widget.pred_decoding w) name) as [k|] eqn:Hk.
  - exists k. split; [reflexivity|apply last_key_In, Hk].
  - apply last_key_None in Hk. contradiction.
Qed.

Lemma ground_truth_lookup_witness :
  In "Rest"%string (map snd (Widget.pred_decoding example_widget)) /\
  exists y_true,
    (n <- dict_getitem Z.eqb (Widget.markers_decoding example_widget) 1 ;;
     dict_getitem String.eqb (Widget.decoding2pred example_widget) n)
    = Ok y_true /\
    In (y_true, "Rest"%string) (Widget.pred_decoding example_widget).
Proof.
  assert (Hin : In "Rest"%string
                  (map snd (Widget.pred_decoding example_widget)))
    by (left; reflexivity).
  split; [exact Hin|].
  exact (ground_truth_lookup example_widget 1 "Rest"%string
           eq_refl eq_refl Hin).
Defined.

(** ** The properties read from the controls *)

Lemma append_empty_r (s : string) : (s ++ EmptyString)%string = s.
Proof. induction s as [|c s IH]; simpl; [reflexivity|now rewrite IH]. Qed.

Lemma append_assoc (a b c : string) :
  ((a ++ b) ++ c)%string = (a ++ (b ++ c))%string.
Proof. induction a as [|x a IH]; simpl; [reflexivity|now rewrite IH]. Qed.

Lemma last_segment_no_dot (s : string) :
  forall current, no_dot s = true ->
                  last_segment s current = (current ++ s)%string.
Proof.
  induction s as [|c s IH]; intros current H; simpl in *.
  - now rewrite append_empty_r.
  - apply andb_true_iff in H as [Hc Hs].
    destruct (Ascii.eqb c "."%char); [discriminate|].
    rewrite (IH _ Hs), append_assoc. reflexivity.
Qed.

Lemma last_segment_after_dot (p r : string) :
  forall current, no_dot r = true ->
                  last_segment (p ++ String "."%char r) current = r.
Proof.
  induction p as [|c p IH]; intros current Hr; simpl.
  - apply (last_segment_no_dot r EmptyString Hr).
  - destruct (Ascii.eqb c "."%char); apply IH, Hr.
Qed.

Lemma split_last_dot (s : string) :
  no_dot s = true \/
  exists p r, s = (p ++ String "."%char r)%string /\ no_dot r = true.
Proof.
  induction s as [|c s [IH|(p & r & -> & Hr)]]; simpl.
  - left. reflexivity.
  - destruct (Ascii.eqb_spec c "."%char) as [->|Hne].
    + right. exists EmptyString, s. split; [reflexivity|exact IH].
    + left. rewrite IH. reflexivity.
  - right. exists (String c p), r. split; [reflexivity|exact Hr].
Qed.

(** X6: [is_convnet] holds exactly when the selected model name is [h5] or
    ends in [.h5]: only the part after the last dot counts, so [a.h5.pkl]
    is not a network and [h5] without any dot is one. *)
Theorem is_convnet_extension (w : Widget.TestWidget) :
  Widget.is_convnet w = true <->
  Widget.select_model_value w = "h5"%string \/
  exists p, Widget.select_model_value w = (p ++ ".h5")%string.
Proof.
  unfold Widget.is_convnet. rewrite String.eqb_eq.
  set (v := Widget.select_model_value w). split.
  - intros H. destruct (split_last_dot v) as [Hv|(p & r & Hs & Hr)].
    + left. rewrite (last_segment_no_dot v EmptyString Hv) in H. exact H.
    + right. exists p. rewrite Hs in *.
      rewrite (last_segment_after_dot p r EmptyString Hr) in H.
      rewrite H. reflexivity.
  - intros [->|(p & ->)]; [reflexivity|].
    apply (last_segment_after_dot p "h5" EmptyString). reflexivity.
Qed.

Example is_convnet_examples :
  Widget.is_convnet example_widget_neural = true /\
  Widget.is_convnet example_widget = false /\
  last_segment "a.h5.pkl" EmptyString = "pkl"%string /\
  last_segment "h5" EmptyString = "h5"%string.
Proof. repeat split; reflexivity. Qed.

(** X7: with the indices a three-button group can report (0, 1, 2), the
    flags are read by position: Filter is button 0, Standardize button 1 and
    Rereference button 2, in whatever order and however often [active] lists
    them. *)
Theorem preprocessing_flags_by_index (w : Widget.TestWidget) :
  Forall (fun i => (i < 3)%nat) (Widget.checkbox_preproc_active w) ->
  (Widget.should_filter w = true <->
   In 0%nat (Widget.checkbox_preproc_active w)) /\
  (Widget.should_standardize w = true <->
   In 1%nat (Widget.checkbox_preproc_active w)) /\
  (Widget.should_reref w = true <->
   In 2%nat (Widget.checkbox_preproc_active w)).
Proof.
  intros Hrange.
  unfold Widget.should_filter, Widget.should_standardize, Widget.should_reref,
    Widget.string_in, Widget.selected_preproc.
  rewrite Forall_forall in Hrange.
  repeat split; rewrite existsb_exists.
  all: try (intros (s & Hin & Heq); apply in_map_iff in Hin as (i & <- & Hin);
            pose proof (Hrange i Hin) as Hi;
            destruct i as [|[|[|i]]]; try lia;
            (exact Hin || (simpl in Heq; discriminate))).
  all: intros Hin; eexists; (split; [apply in_map, Hin|reflexivity]).
Qed.

Lemma preprocessing_flags_by_index_witness :
  Forall (fun i => (i < 3)%nat)
    (Widget.checkbox_preproc_active example_widget_neural) /\
  (Widget.should_filter example_widget_neural = true <->
   In 0%nat (Widget.checkbox_preproc_active example_widget_neural)) /\
  (Widget.should_standardize example_widget_neural = true <->
   In 1%nat (Widget.checkbox_preproc_active example_widget_neural)) /\
  (Widget.should_reref example_widget_neural = true <->
   In 2%nat (Widget.checkbox_preproc_active example_widget_neural)).
Proof.
  assert (H : Forall (fun i => (i < 3)%nat)
                (Widget.checkbox_preproc_active example_widget_neural))
    by (repeat constructor).
  split; [exact H|].
  exact (preprocessing_flags_by_index example_widget_neural H).
Defined.

Lemma int_of_float_floor (x : Q) :
  (0 <= x)%Q ->
  0 <= int_of_float x /\
  (inject_Z (int_of_float x) <= x)%Q /\
  (x < inject_Z (int_of_float x) + 1)%Q.
Proof.
  destruct x as [n d]. unfold Qle, Qlt, int_of_float. simpl.
  intros Hn. rewrite Z.mul_1_r in Hn.
  rewrite Z.quot_div_nonneg by lia.
  pose proof (Z.div_mod n (Zpos d) ltac:(lia)) as Hdm.
  pose proof (Z.mod_pos_bound n (Zpos d) ltac:(lia)) as Hm.
  split; [apply Z.div_pos; lia|]. split; nia.
Qed.

(** X8: the window length in samples.  Before a run is loaded the sampling
    rate is not set and reading [win_len] raises [AttributeError]; once it
    is, for a non-negative rate and slider value, [win_len] is the integer
    part of [fs * seconds]: it is not negative and is the only integer [n]
    with [n <= fs * seconds < n + 1]. *)
Theorem win_len_floor (w : Widget.TestWidget) :
  match Widget.fs w with
  | None => Widget.win_len w = Raise AttributeError
  | Some f =>
      (0 <= f)%Q -> (0 <= Widget.slider_win_len_value w)%Q ->
      exists n,
        Widget.win_len w = Ok n /\ 0 <= n /\
        (inject_Z n <= f * Widget.slider_win_len_value w)%Q /\
        (f * Widget.slider_win_len_value w < inject_Z n + 1)%Q
  end.
Proof.
  unfold Widget.win_len. destruct (Widget.fs w) as [f|]; simpl;
    [|reflexivity].
  intros Hf Hs. eexists. split; [reflexivity|].
  apply int_of_float_floor. apply Qmult_le_0_compat; assumption.
Qed.

Lemma win_len_floor_witness :
  (0 <= 2)%Q /\ (0 <= Widget.slider_win_len_value example_widget)%Q /\
  exists n,
    Widget.win_len example_widget = Ok n /\ 0 <= n /\
    (inject_Z n <= 2 * Widget.slider_win_len_value example_widget)%Q /\
    (2 * Widget.slider_win_len_value example_widget < inject_Z n + 1)%Q.
Proof.
  assert (H1 : (0 <= 2)%Q) by discriminate.
  assert (H2 : (0 <= Widget.slider_win_len_value example_widget)%Q)
    by discriminate.
  split; [exact H1|]. split; [exact H2|].
  exact (win_len_floor example_widget H1 H2).
Defined.

(** ** The content of an epoch *)

Lemma slice_in_bounds {A : Type} (l : list A) (start stop : Z) (d : A) :
  0 <= start <= stop -> stop <= Z.of_nat (length l) ->
  Z.of_nat (length (slice l start stop)) = stop - start /\
  forall j, (j < Z.to_nat (stop - start))%nat ->
            nth j (slice l start stop) d = nth (Z.to_nat start + j) l d.
Proof.
  intros Hs Hstop. split.
  - rewrite slice_length. unfold slice_bound.
    destruct (Z.ltb_spec stop 0), (Z.ltb_spec start 0); lia.
  - intros j Hj. unfold slice, slice_bound.
    destruct (Z.ltb_spec stop 0); [lia|]. destruct (Z.ltb_spec start 0); [lia|].
    rewrite !Z.min_l by lia. rewrite nth_firstn.
    destruct (Nat.ltb_spec j (Z.to_nat (stop - start))); [|lia].
    apply nth_skipn.
Qed.

(** X9: when the window fits in front of the event ([0 <= window <=
    end_idx]) and the channels are as long as the time vector, the epoch has
    one row per channel, and row [c] holds, in order, the [window] samples
    [end_idx - window], ..., [end_idx - 1] of channel [c]: the sample nearest
    to the event is the first one left out. *)
Theorem extract_epoch_content
  (vals : Np.matrix) (timestamps : list Q) (t : Q) (window : Z) :
  timestamps <> [] ->
  Forall (fun channel => length channel = length timestamps) vals ->
  exists i,
    Widget.nearest_sample t timestamps = Ok (Z.of_nat i) /\
    (0 <= window <= Z.of_nat i ->
     exists epoch,
       Widget.extract_epoch vals timestamps t (Ok window) = Ok [epoch] /\
       Forall2 (fun channel row =>
                  Z.of_nat (length row) = window /\
                  forall j, (j < Z.to_nat window)%nat ->
                            nth j row 0%Q =
                            nth (Z.to_nat (Z.of_nat i - window) + j) channel 0%Q)
         vals epoch).
Proof.
  intros Hne Hshape.
  destruct (extract_epoch_Ok vals timestamps t window Hne)
    as (i & Hi & Hlen & He).
  exists i. split; [exact Hi|]. intros Hw.
  eexists. split; [exact He|].
  clear He. induction Hshape as [|channel vals Hc _ IH]; simpl; constructor.
  - destruct (slice_in_bounds channel (Z.of_nat i - window) (Z.of_nat i) 0%Q)
      as [Hl Hn]; [lia|lia|].
    split; [lia|]. intros j Hj. apply Hn. lia.
  - exact IH.
Qed.

Lemma extract_epoch_content_witness :
  small_ts <> [] /\
  Forall (fun channel => length channel = length small_ts) small_values /\
  0 <= 2 <= 3 /\
  Widget.extract_epoch small_values small_ts (3 # 2)%Q (Ok 2)
  = Ok [[[2; 3]%Q; [6; 7]%Q]] /\
  exists i,
    Widget.nearest_sample (3 # 2)%Q small_ts = Ok (Z.of_nat i) /\
    (0 <= 2 <= Z.of_nat i ->
     exists epoch,
       Widget.extract_epoch small_values small_ts (3 # 2)%Q (Ok 2)
       = Ok [epoch] /\
       Forall2 (fun channel row =>
                  Z.of_nat (length row) = 2 /\
                  forall j, (j < Z.to_nat 2)%nat ->
                            nth j row 0%Q =
                            nth (Z.to_nat (Z.of_nat i - 2) + j) channel 0%Q)
         small_values epoch).
Proof.
  assert (Hne : small_ts <> []) by discriminate.
  assert (Hshape : Forall (fun channel => length channel = length small_ts)
                     small_values) by (repeat constructor).
  split; [exact Hne|]. split; [exact Hshape|]. split; [lia|].
  split; [reflexivity|].
  exact (extract_epoch_content small_values small_ts (3 # 2)%Q 2 Hne Hshape).
Defined.

(** ** From a sample index to seconds and back *)

Lemma argmin_exact (t : Q) (timestamps : list Q) (k : nat) :
  StronglySorted Qlt timestamps -> (k < length timestamps)%nat ->
  (nth k timestamps 0 == t)%Q ->
  Np.argmin (Np.abs_diff t timestamps) = Ok (Z.of_nat k).
Proof.
  intros Hs Hk Heq.
  destruct (argmin_first_min (Np.abs_diff t timestamps))
    as (i & Hi & Hlen & Hmin & _).
  { destruct timestamps; [simpl in Hk; lia|discriminate]. }
  unfold Np.abs_diff in Hlen. rewrite length_map in Hlen.
  assert (Hik : (nth i timestamps 0 == nth k timestamps 0)%Q).
  { rewrite Heq. apply Qabs_diff_zero.
    specialize (Hmin k). unfold Np.abs_diff in Hmin at 1.
    rewrite length_map in Hmin. specialize (Hmin Hk).
    rewrite !abs_diff_nth in Hmin by assumption.
    eapply Qle_trans; [exact Hmin|].
    rewrite Heq. setoid_replace (t - t)%Q with 0%Q by ring. discriminate. }
  destruct (Nat.lt_trichotomy i k) as [Hlt|[->|Hgt]]; [|exact Hi|].
  - pose proof (sorted_nth_lt _ Hs i k Hlt Hk) as H.
    rewrite Hik in H. exfalso. exact (Qlt_irrefl _ H).
  - pose proof (sorted_nth_lt _ Hs k i Hgt Hlen) as H.
    rewrite Hik in H. exfalso. exact (Qlt_irrefl _ H).
Qed.

Lemma grid_sorted (f : Q) (n : nat) :
  (0 < f)%Q ->
  forall a, StronglySorted Qlt
              (map (fun i => (inject_Z (Z.of_nat i) / f)%Q) (seq a n)).
Proof.
  intros Hf. induction n as [|n IH]; intros a; simpl; constructor.
  - apply IH.
  - apply Forall_forall. intros q Hq.
    apply in_map_iff in Hq as (i & <- & Hi). apply in_seq in Hi.
    apply Qmult_lt_compat_r; [apply Qinv_lt_0_compat, Hf|].
    rewrite <- Zlt_Qlt. lia.
Qed.

Lemma grid_nth (f : Q) (n k : nat) :
  (k < n)%nat ->
  nth k (uniform_times f n) 0%Q = (inject_Z (Z.of_nat k) / f)%Q.
Proof.
  intros Hk. unfold uniform_times.
  rewrite (nth_indep _ 0%Q ((fun i => (inject_Z (Z.of_nat i) / f)%Q) 0%nat))
    by (rewrite length_map, length_seq; exact Hk).
  rewrite (map_nth (fun i => (inject_Z (Z.of_nat i) / f)%Q)).
  rewrite seq_nth by exact Hk. reflexivity.
Qed.

(** X10: on a time vector with sample [i] at [i / fs] and a positive
    sampling rate, every event that the decoder stores for a sample [k] of
    the recording (as [k / fs] seconds) is looked up at index [k] again by
    the validation loop: seconds and back is the identity on sample
    indices. *)
Theorem sample_seconds_round_trip
  (f : Q) (n : nat) (decoded_events : list (Z * Z)) :
  (0 < f)%Q ->
  Forall (fun e => 0 <= fst e < Z.of_nat n) decoded_events ->
  Forall2 (fun e stored =>
             snd stored = snd e /\
             Widget.nearest_sample (fst stored) (uniform_times f n)
             = Ok (fst e))
    decoded_events (Widget.to_seconds f decoded_events).
Proof.
  intros Hf. induction 1 as [|e l He _ IH]; simpl; constructor; [|exact IH].
  split; [reflexivity|]. simpl.
  rewrite <- (Z2Nat.id (fst e)) at 2 by lia.
  apply argmin_exact.
  - apply grid_sorted, Hf.
  - unfold uniform_times. rewrite length_map, length_seq. lia.
  - rewrite grid_nth by lia. rewrite Z2Nat.id by lia. reflexivity.
Qed.

Lemma sample_seconds_round_trip_witness :
  (0 < 500)%Q /\
  Forall (fun e => 0 <= fst e < Z.of_nat 1000) [(600, 1); (100, 2)] /\
  Forall2 (fun e stored =>
             snd stored = snd e /\
             Widget.nearest_sample (fst stored) (uniform_times 500 1000)
             = Ok (fst e))
    [(600, 1); (100, 2)] (Widget.to_seconds 500 [(600, 1); (100, 2)]).
Proof.
  assert (H1 : (0 < 500)%Q) by reflexivity.
  assert (H2 : Forall (fun e => 0 <= fst e < Z.of_nat 1000)
                 [(600, 1); (100, 2)])
    by (repeat constructor; simpl; lia).
  split; [exact H1|]. split; [exact H2|].
  exact (sample_seconds_round_trip 500 1000 [(600, 1); (100, 2)] H1 H2).
Defined.

(** ** The aggregator: votes, class indices, failures *)

Section Aggregator.
Variable cropping :
  Np.tensor3 -> list (option Z) -> Q -> Z -> Q ->
  result (Np.tensor3 * list (option Z)).
Variable preprocessing :
  Np.tensor3 -> Q -> bool -> bool -> bool -> result Np.tensor3.
Variables (X : Np.tensor3) (models : Models.models_arg Models.model).
Variables (n_crops : Z) (crop_len fs : Q).
Variables (should_reref should_filter should_standardize : bool).

Lemma predict_classical_eq (Xc : Np.tensor3) (lbl : list (option Z))
  (y : list (list Z)) :
  cropping X [None] fs n_crops crop_len = Ok (Xc, lbl) ->
  comprehension (Models.predict_labels Xc) (Models.as_list models) = Ok y ->
  Models.predict cropping preprocessing X models false n_crops crop_len fs
    should_reref should_filter should_standardize =
  (y_preds <- Np.concatenate y ;; most_common_label y_preds).
Proof.
  intros Hcrop Hy. unfold Models.predict. rewrite Hcrop. simpl.
  rewrite Hy. reflexivity.
Qed.

Lemma predict_neural_eq (Xc Xp : Np.tensor3) (lbl : list (option Z))
  (y_prob : list Np.matrix) :
  cropping X [None] fs n_crops crop_len = Ok (Xc, lbl) ->
  preprocessing Xc fs should_reref should_filter should_standardize = Ok Xp ->
  comprehension (Models.predict_scores (Np.newaxis_last Xp))
    (Models.as_list models) = Ok y_prob ->
  Models.predict cropping preprocessing X models true n_crops crop_len fs
    should_reref should_filter should_standardize =
  (y_preds <- (y_probs <- Np.sum_axis0 y_prob ;; Np.argmax_axis1 y_probs) ;;
   most_common_label y_preds).
Proof.
  intros Hcrop Hpre Hy. unfold Models.predict. rewrite Hcrop. simpl.
  rewrite Hpre. simpl. rewrite Hy. reflexivity.
Qed.
End Aggregator.

Lemma strict_mode (ys : list Z) (l : Z) :
  (forall v, v <> l ->
             (count_occ Z.eq_dec ys v < count_occ Z.eq_dec ys l)%nat) ->
  most_common_label ys = Ok l.
Proof.
  intros Hstrict.
  destruct (most_common_label_total ys) as (l' & Hl').
  { intros ->. specialize (Hstrict (l + 1) ltac:(lia)). simpl in Hstrict. lia. }
  rewrite Hl'. f_equal.
  destruct (most_common_label_first_mode ys l' Hl') as (_ & Hmax & _).
  destruct (Z.eq_dec l' l) as [|Hne]; [assumption|].
  specialize (Hstrict l' Hne). specialize (Hmax l). lia.
Qed.

(** X11: on the classical path a label that is strictly more frequent than
    every other label among all (model, crop) predictions is the one
    returned, and it stays the one chosen however those predictions are
    reordered: the order of models and crops only matters between labels of
    equal highest count. *)
Theorem classical_strict_majority
  (cropping : Np.tensor3 -> list (option Z) -> Q -> Z -> Q ->
              result (Np.tensor3 * list (option Z)))
  (preprocessing : Np.tensor3 -> Q -> bool -> bool -> bool -> result Np.tensor3)
  (X : Np.tensor3) (models : Models.models_arg Models.model)
  (n_crops : Z) (crop_len fs : Q)
  (should_reref should_filter should_standardize : bool)
  (Xc : Np.tensor3) (lbl : list (option Z)) (y : list (list Z)) (l : Z) :
  cropping X [None] fs n_crops crop_len = Ok (Xc, lbl) ->
  comprehension (Models.predict_labels Xc) (Models.as_list models) = Ok y ->
  (forall v, v <> l ->
             (count_occ Z.eq_dec (concat y) v
              < count_occ Z.eq_dec (concat y) l)%nat) ->
  Models.predict cropping preprocessing X models false n_crops crop_len fs
    should_reref should_filter should_standardize = Ok l /\
  forall ys, Permutation (concat y) ys -> most_common_label ys = Ok l.
Proof.
  intros Hcrop Hy Hstrict. split.
  - rewrite (predict_classical_eq _ _ _ _ _ _ _ _ _ _ _ _ _ Hcrop Hy).
    destruct y as [|y0 y].
    + specialize (Hstrict (l + 1) ltac:(lia)). simpl in Hstrict. lia.
    + simpl. apply strict_mode, Hstrict.
  - intros ys Hperm. apply strict_mode. intros v Hv.
    rewrite <- !(proj1 (Permutation_count_occ Z.eq_dec _ _) Hperm).
    apply Hstrict, Hv.
Qed.

Lemma classical_strict_majority_witness :
  (forall v, v <> 1 ->
             (count_occ Z.eq_dec (concat three_votes) v
              < count_occ Z.eq_dec (concat three_votes) 1%Z)%nat) /\
  Models.predict no_cropping no_preprocessing [[[0%Q]]]
    (Models.Several (map constant_pipeline three_votes))
    false 3 (1 # 2)%Q 500%Q true false true = Ok 1.
Proof.
  assert (H : forall v, v <> 1 ->
             (count_occ Z.eq_dec (concat three_votes) v
              < count_occ Z.eq_dec (concat three_votes) 1%Z)%nat).
  { intros v Hv. destruct (Z.eq_dec v 2) as [->|H2].
    - vm_compute. lia.
    - assert (H0 : count_occ Z.eq_dec (concat three_votes) v = 0%nat).
      { apply count_occ_not_In. simpl. intuition congruence. }
      rewrite H0. vm_compute. lia. }
  split; [exact H|].
  exact (proj1 (classical_strict_majority no_cropping no_preprocessing
                  [[[0%Q]]]
                  (Models.Several (map constant_pipeline three_votes))
                  3 (1 # 2)%Q 500%Q true false true
                  [[[0%Q]]] [None] three_votes 1
                  eq_refl eq_refl H)).
Defined.

Lemma Forall2_In_right {A B : Type} (R : A -> B -> Prop) (l : list A)
  (l' : list B) (y : B) :
  Forall2 R l l' -> In y l' -> exists x, In x l /\ R x y.
Proof.
  induction 1 as [|a b l l' Hab _ IH]; intros Hin; [contradiction|].
  destruct Hin as [<-|Hin].
  - exists a. split; [left; reflexivity|exact Hab].
  - destruct (IH Hin) as (x & Hx & HR). exists x. split; [right|]; assumption.
Qed.

(** X12: on the neural path the label returned is a class index: when every
    row of the summed probability matrix has [n_classes] entries, the label
    lies in [0, n_classes). *)
Theorem neural_label_is_class_index
  (cropping : Np.tensor3 -> list (option Z) -> Q -> Z -> Q ->
              result (Np.tensor3 * list (option Z)))
  (preprocessing : Np.tensor3 -> Q -> bool -> bool -> bool -> result Np.tensor3)
  (X : Np.tensor3) (models : Models.models_arg Models.model)
  (n_crops : Z) (crop_len fs : Q)
  (should_reref should_filter should_standardize : bool)
  (Xc Xp : Np.tensor3) (lbl : list (option Z))
  (y_prob : list Np.matrix) (y_probs : Np.matrix) (n_classes : nat)
  (y_pred : Z) :
  cropping X [None] fs n_crops crop_len = Ok (Xc, lbl) ->
  preprocessing Xc fs should_reref should_filter should_standardize = Ok Xp ->
  comprehension (Models.predict_scores (Np.newaxis_last Xp))
    (Models.as_list models) = Ok y_prob ->
  Np.sum_axis0 y_prob = Ok y_probs ->
  Forall (fun row => length row = n_classes) y_probs ->
  Models.predict cropping preprocessing X models true n_crops crop_len fs
    should_reref should_filter should_standardize = Ok y_pred ->
  0 <= y_pred < Z.of_nat n_classes.
Proof.
  intros Hcrop Hpre Hy Hsum Hrows Hpred.
  rewrite (predict_neural_eq _ _ _ _ _ _ _ _ _ _ _ _ _ _ Hcrop Hpre Hy) in Hpred.
  rewrite Hsum in Hpred. simpl in Hpred.
  apply bind_Ok in Hpred as (y_preds & Hargmax & Hlabel).
  apply most_common_label_first_mode in Hlabel as (Hin & _).
  apply comprehension_Forall2 in Hargmax.
  destruct (Forall2_In_right _ _ _ _ Hargmax Hin) as (row & Hrow & Hmax).
  rewrite Forall_forall in Hrows. specialize (Hrows row Hrow).
  destruct (argmax_first_max row) as (i & Hi & Hlen & _).
  { intros ->. discriminate. }
  rewrite Hi in Hmax. inversion Hmax; subst. lia.
Qed.

Lemma neural_label_is_class_index_witness :
  Forall (fun row => length row = 4%nat) crop_scores /\
  Models.predict no_cropping no_preprocessing [[[0%Q]]]
    (Models.Single constant_network) true 4 (1 # 2)%Q 500%Q true false true
  = Ok 0 /\
  0 <= 0 < Z.of_nat 4.
Proof.
  assert (Hrows : Forall (fun row => length row = 4%nat) crop_scores)
    by (repeat constructor).
  split; [exact Hrows|]. split; [reflexivity|].
  exact (neural_label_is_class_index no_cropping no_preprocessing [[[0%Q]]]
           (Models.Single constant_network) 4 (1 # 2)%Q 500%Q true false true
           [[[0%Q]]] [[[0%Q]]] [None] [crop_scores] crop_scores 4 0
           eq_refl eq_refl eq_refl eq_refl Hrows eq_refl).
Defined.

(** X13: with a single crop (a summed matrix of one row) the neural path
    returns the argmax of the summed scores, which is also what summing over
    crops and taking the argmax gives; an empty score row raises
    [ValueError] either way. *)
Theorem neural_single_crop
  (cropping : Np.tensor3 -> list (option Z) -> Q -> Z -> Q ->
              result (Np.tensor3 * list (option Z)))
  (preprocessing : Np.tensor3 -> Q -> bool -> bool -> bool -> result Np.tensor3)
  (X : Np.tensor3) (models : Models.models_arg Models.model)
  (n_crops : Z) (crop_len fs : Q)
  (should_reref should_filter should_standardize : bool)
  (Xc Xp : Np.tensor3) (lbl : list (option Z))
  (y_prob : list Np.matrix) (row : list Q) :
  cropping X [None] fs n_crops crop_len = Ok (Xc, lbl) ->
  preprocessing Xc fs should_reref should_filter should_standardize = Ok Xp ->
  comprehension (Models.predict_scores (Np.newaxis_last Xp))
    (Models.as_list models) = Ok y_prob ->
  Np.sum_axis0 y_prob = Ok [row] ->
  Models.predict cropping preprocessing X models true n_crops crop_len fs
    should_reref should_filter should_standardize = Np.argmax row /\
  Models.spec_summed_argmax y_prob = Np.argmax row.
Proof.
  intros Hcrop Hpre Hy Hsum. split.
  - rewrite (predict_neural_eq _ _ _ _ _ _ _ _ _ _ _ _ _ _ Hcrop Hpre Hy).
    rewrite Hsum. unfold Np.argmax_axis1. simpl.
    destruct (Np.argmax row) as [y|e]; reflexivity.
  - unfold Models.spec_summed_argmax. rewrite Hsum. reflexivity.
Qed.

Lemma neural_single_crop_witness :
  Models.predict no_cropping no_preprocessing [[[0%Q]]]
    (Models.Several [single_crop_network; single_crop_network])
    true 1 (1 # 2)%Q 500%Q true false true = Ok 2 /\
  Models.spec_summed_argmax [[single_crop_row]; [single_crop_row]] = Ok 2.
Proof.
  destruct (neural_single_crop no_cropping no_preprocessing [[[0%Q]]]
              (Models.Several [single_crop_network; single_crop_network])
              1 (1 # 2)%Q 500%Q true false true
              [[[0%Q]]] [[[0%Q]]] [None]
              [[single_crop_row]; [single_crop_row]]
              (map (fun x => (x + x)%Q) single_crop_row)
              eq_refl eq_refl eq_refl eq_refl) as [H1 H2].
  split; [rewrite H1|rewrite H2]; reflexivity.
Defined.

(** X14: [predict] returns a label only if cropping succeeded and the model
    list is not empty (an empty list raises on both paths); on the classical
    path every model then returned its labels, and the label returned is one
    of them: [predict] never invents a label. *)
Theorem predict_label_inversion
  (cropping : Np.tensor3 -> list (option Z) -> Q -> Z -> Q ->
              result (Np.tensor3 * list (option Z)))
  (preprocessing : Np.tensor3 -> Q -> bool -> bool -> bool -> result Np.tensor3)
  (X : Np.tensor3) (models : Models.models_arg Models.model)
  (is_convnet : bool) (n_crops : Z) (crop_len fs : Q)
  (should_reref should_filter should_standardize : bool) (y_pred : Z) :
  Models.predict cropping preprocessing X models is_convnet n_crops crop_len
    fs should_reref should_filter should_standardize = Ok y_pred ->
  Models.as_list models <> [] /\
  exists Xc lbl,
    cropping X [None] fs n_crops crop_len = Ok (Xc, lbl) /\
    (is_convnet = false ->
     exists y,
       comprehension (Models.predict_labels Xc) (Models.as_list models)
       = Ok y /\
       In y_pred (concat y)).
Proof.
  unfold Models.predict. intros H.
  apply bind_Ok in H as ([Xc lbl] & Hcrop & H).
  apply bind_Ok in H as (y_preds & Hvotes & Hlabel).
  split.
  - intros Hnil. rewrite Hnil in Hvotes. destruct is_convnet.
    + destruct (preprocessing Xc fs should_reref should_filter
                  should_standardize); discriminate.
    + discriminate.
  - exists Xc, lbl. split; [exact Hcrop|]. intros ->.
    apply bind_Ok in Hvotes as (y & Hy & Hcat).
    exists y. split; [exact Hy|].
    destruct y as [|y0 y]; [discriminate|]. inversion Hcat; subst.
    apply most_common_label_first_mode in Hlabel as (Hin & _). exact Hin.
Qed.

Lemma predict_label_inversion_witness :
  Models.predict no_cropping no_preprocessing [[[0%Q]]]
    (Models.Several (map constant_pipeline three_votes))
    false 3 (1 # 2)%Q 500%Q true false true = Ok 1 /\
  Models.as_list (Models.Several (map constant_pipeline three_votes)) <> [] /\
  Models.predict no_cropping no_preprocessing [[[0%Q]]] (Models.Several [])
    false 3 (1 # 2)%Q 500%Q true false true = Raise ValueError /\
  Models.predict no_cropping no_preprocessing [[[0%Q]]] (Models.Several [])
    true 3 (1 # 2)%Q 500%Q true false true = Raise AxisError.
Proof.
  assert (H : Models.predict no_cropping no_preprocessing [[[0%Q]]]
                (Models.Several (map constant_pipeline three_votes))
                false 3 (1 # 2)%Q 500%Q true false true = Ok 1)
    by reflexivity.
  split; [exact H|]. split.
  - exact (proj1 (predict_label_inversion no_cropping no_preprocessing
                    [[[0%Q]]]
                    (Models.Several (map constant_pipeline three_votes))
                    false 3 (1 # 2)%Q 500%Q true false true 1 H)).
  - split; reflexivity.
Defined.

(** ** Aborted and refused validation passes *)

(** X15: [on_validate] only ever appends to the log.  Without a loaded run
    it raises [KeyError] and changes nothing.  With one, whatever its
    outcome, the widget it leaves differs from the one it found by rows
    appended to the log, exactly one for each event of a prefix of the run's
    events, in order; the prefix is the whole list when the outcome is not an
    exception, and when events are left over the first of them is the one
    whose prediction or ground-truth lookup raised the exception that ended
    the pass: rows logged before it are kept. *)
Theorem on_validate_appends
  (cropping : Np.tensor3 -> list (option Z) -> Q -> Z -> Q ->
              result (Np.tensor3 * list (option Z)))
  (preprocessing : Np.tensor3 -> Q -> bool -> bool -> bool -> result Np.tensor3)
  (metrics : list Z -> list Z -> result (Q * Q))
  (w w' : Widget.TestWidget) (o : option exn) :
  Widget.on_validate cropping preprocessing metrics w = (o, w') ->
  match Widget.data w with
  | None => o = Some KeyError /\ w' = w
  | Some d =>
      exists done rest rs,
        Widget.events d = done ++ rest /\
        comprehension (Widget.predict_event cropping preprocessing w) done
        = Ok rs /\
        w' = Widget.set_chrono w (extend (Widget.chrono_source w) done rs) /\
        (o = None -> rest = []) /\
        (rest <> [] ->
         exists ev rest' e,
           rest = ev :: rest' /\ o = Some e /\
           Widget.predict_event cropping preprocessing w ev = Raise e)
  end.
Proof.
  unfold Widget.on_validate. destruct (Widget.data w) as [d|]; simpl.
  - destruct (Widget.validate_loop cropping preprocessing w (Widget.events d))
      as [o1 w1] eqn:Hloop.
    apply validate_loop_log in Hloop as (done & rs & Hdone & Hw1 & Ho).
    destruct o1 as [e|].
    + intros H. inversion H; subst o w'.
      destruct Ho as (ev & rest & Hevs & Hev).
      exists done, (ev :: rest), rs. repeat split; try assumption.
      * discriminate.
      * intros _. exists ev, rest, e. repeat split. exact Hev.
    + intros H. exists done, [], rs. subst done.
      assert (w' = w1).
      { destruct (metrics _ _); inversion H; reflexivity. }
      subst w'. rewrite app_nil_r.
      repeat split; try assumption. intros Hne. congruence.
  - intros H. inversion H. split; reflexivity.
Qed.

Lemma on_validate_appends_witness :
  fst (Widget.on_validate no_cropping no_preprocessing example_metrics
         example_widget_failing) = Some KeyError /\
  Widget.chrono_source
    (snd (Widget.on_validate no_cropping no_preprocessing example_metrics
            example_widget_failing))
  = Widget.mkColumns [9%Q; 1%Q] [9; 0] [9; 1] /\
  match Widget.data example_widget_failing with
  | None => True
  | Some d =>
      exists done rest rs,
        Widget.events d = done ++ rest /\
        comprehension (Widget.predict_event no_cropping no_preprocessing
                         example_widget_failing) done = Ok rs /\
        snd (Widget.on_validate no_cropping no_preprocessing example_metrics
               example_widget_failing)
        = Widget.set_chrono example_widget_failing
            (extend (Widget.chrono_source example_widget_failing) done rs) /\
        (Some KeyError = None -> rest = []) /\
        (rest <> [] ->
         exists ev rest' e,
           rest = ev :: rest' /\ Some KeyError = Some e /\
           Widget.predict_event no_cropping no_preprocessing
             example_widget_failing ev = Raise e)
  end.
Proof.
  split; [reflexivity|]. split; [reflexivity|].
  exact (on_validate_appends no_cropping no_preprocessing example_metrics
           example_widget_failing
           (snd (Widget.on_validate no_cropping no_preprocessing
                   example_metrics example_widget_failing))
           (Some KeyError) eq_refl).
Defined.


